(** * VT.ai chat front-end (src/vtai/app.py): routing, handlers, history

    A shallow embedding of the dispatcher of [app.py]: the session store
    ([cl.user_session]) with its conversation history and settings, the
    capability handlers (chat completion, image generation, vision, audio
    transcription, text-to-speech), the dynamic conversation router and the
    three entry points ([on_message], [update_settings],
    [on_speak_chat_response]) together with [start_chat].

    Modelling conventions.
    - Handlers are computations in a state-and-exception monad [M] over a
      [World]: the session store, the log of effects on the outside world
      (messages sent to the UI, calls to remote services, files written) and
      a ghost log of handler entries.  A Python exception is the [Raised]
      outcome; the world reached when it was raised is kept, as mutations
      made before a [raise] persist in Python.
    - The remote collaborators (classifier, completion, image generation,
      vision, transcription, speech synthesis, [trim_messages],
      [extract_url], file reading) are not part of this program.  They are
      the fields of a [Services] record that every handler takes: what a
      call returns or raises is arbitrary.  They are functions of their
      arguments and do not write to the session store.
    - Calls on the UI sink ([cl.Message.send], [stream_token], [update],
      [action.remove]) are logged and do not raise.  Console [print]s are
      left out.  Building a UI element ([cl.Image], [cl.Text], [cl.Audio])
      raises [ValueError] when it is given neither a url, nor a path, nor a
      content, as the constructor of the chat framework does ([new_element]);
      in [__handle_tts_response] the text and the file path are non-empty
      where the elements are built, so they are built directly.
    - Constants of [llms_config] and [constants] that the file imports are
      parameters ([Config], [SemanticRouterType]). *)

From stdpp Require Import list strings.

Open Scope string_scope.
Open Scope list_scope.

(** ** Data model *)

(** One history entry: the dict [{"role": role, "content": content}]. *)
Record Message := mkMessage { role : string; content : string }.

#[global] Instance Message_eq_dec : EqDecision Message.
Proof. solve_decision. Defined.

(** The [chat_settings] dict that the chat framework keeps for the session:
    one entry per widget of [__build_settings]. *)
Record Settings := mkSettings {
  SETTINGS_CHAT_MODEL : string;
  SETTINGS_VISION_MODEL : string;
  SETTINGS_ENABLE_TTS_RESPONSE : bool;
  SETTINGS_TTS_MODEL : string;
  SETTINGS_TTS_VOICE_PRESET_MODEL : string;
  SETTINGS_USE_DYNAMIC_CONVERSATION_ROUTING : bool;
  SETTINGS_TRIMMED_MESSAGES : bool;
}.

(** [cl.user_session]: the keys this program reads or writes.  A key that
    was never set reads as [None]. *)
Record UserSession := mkUserSession {
  message_history : option (list Message);
  chat_settings : option Settings;
  key_chat_model : option string;
  key_vision_model : option string;
  key_use_dynamic_conversation_routing : option bool;
  key_tts_model : option string;
  key_tts_voice_preset_model : option string;
  key_enable_tts_response : option bool;
}.

Definition empty_session : UserSession :=
  mkUserSession None None None None None None None None.

(** A Python exception: how [type(e)] and [e] are rendered in an f-string. *)
Record exn := mkExn { exn_type : string; exn_text : string }.

(** UI elements and actions attached to an outgoing [cl.Message]. *)
Inductive element :=
| ImageUrl (url name : string)
| ImagePath (path name : string)
| Text (name content : string)
| Audio (name path : string).

Record Action := mkAction {
  action_name : string; action_value : string; action_label : string }.

(** Effects on the outside world, in the order they happen. *)
Inductive effect :=
| Send (author : option string) (content : string)
       (elements : list element) (actions : list Action)
| StreamToken (token : string)
| Update (content : string) (actions : list Action)
| RemoveAction (a : Action)
| CallRouteLayer (query : string)
| CallCompletion (model : option string) (messages : list Message)
| CallImageGeneration (prompt model : string)
| CallSupportsVision (model : option string)
| CallVisionCompletion (model : option string) (prompt image : string)
| CallTranscription (model path : string)
| CallSpeech (model voice : option string) (input : string)
| StreamToFile (path : string)
| ReadText (path : string).

(** Ghost log: which handler was entered, with its arguments. *)
Inductive handler_call :=
| ChatCompletionHandler (model : option string)
| ImageGenerationHandler (query : string)
| VisionHandler (input_image prompt : string) (is_local : bool)
| TranscriptionHandler (path : string)
| TextToSpeechHandler (context : string).

Record World := mkWorld {
  session : UserSession;
  effects : list effect;
  invoked : list handler_call;
}.

Definition empty_world : World := mkWorld empty_session [] [].

(** The stored history as a sequence ([get("message_history") or []]). *)
Definition history (w : World) : list Message :=
  default [] (message_history (session w)).

(** ** The monad of handlers *)

Inductive outcome (A : Type) :=
| Returned (a : A) (w : World)
| Raised (e : exn) (w : World).
Arguments Returned {A} a w.
Arguments Raised {A} e w.

Definition M (A : Type) : Type := World -> outcome A.

Definition world_of {A} (o : outcome A) : World :=
  match o with Returned _ w => w | Raised _ w => w end.

Definition ret {A} (a : A) : M A := fun w => Returned a w.

Definition bind {A B} (m : M A) (k : A -> M B) : M B :=
  fun w => match m w with
           | Returned a w' => k a w'
           | Raised e w' => Raised e w'
           end.

Definition raise {A} (e : exn) : M A := fun w => Raised e w.

(** [try: body except Exception as e: handler(e)] *)
Definition try_except {A} (body : M A) (handler : exn -> M A) : M A :=
  fun w => match body w with
           | Returned a w' => Returned a w'
           | Raised e w' => handler e w'
           end.

Notation "'let*' x ':=' m 'in' k" := (bind m (fun x => k))
  (at level 10, x name, m at level 100, k at level 200).

(** [for x in xs: body(x)] *)
Fixpoint for_each {A} (body : A -> M unit) (xs : list A) : M unit :=
  match xs with
  | [] => ret tt
  | x :: rest => let* _ := body x in for_each body rest
  end.

(** A result of a remote call. *)
Inductive result (A : Type) :=
| Ok (a : A)
| Err (e : exn).
Arguments Ok {A} a.
Arguments Err {A} e.

Definition emit (e : effect) : M unit :=
  fun w => Returned tt (mkWorld (session w) (effects w ++ [e]) (invoked w)).

Definition enter (h : handler_call) : M unit :=
  fun w => Returned tt (mkWorld (session w) (effects w) (invoked w ++ [h])).

(** Log the call and return or raise what the service answers. *)
Definition call {A} (e : effect) (r : result A) : M A :=
  let* _ := emit e in match r with Ok a => ret a | Err x => raise x end.

Definition get_session : M UserSession := fun w => Returned (session w) w.

Definition set_session (s : UserSession) : M unit :=
  fun w => Returned tt (mkWorld s (effects w) (invoked w)).

(** ** Remote collaborators and configuration *)

(** What a streaming completion delivers: the [delta.content] of each part
    ([None] for a part without content), and the exception that ends the
    stream early, if any. *)
Record Stream := mkStream {
  parts : list (option string);
  broken : option exn;
}.

Record Services := mkServices {
  route_layer : string -> result (option string);
  extract_url : string -> list string;
  trim_messages : list Message -> option string -> list Message;
  acompletion_stream : option string -> list Message -> result Stream;
  aimage_generation : string -> string -> result (string * string);
  supports_vision : option string -> bool;
  acompletion_vision : option string -> string -> string -> result string;
  transcriptions_create : string -> string -> result string;
  speech_create : option string -> option string -> string -> result unit;
  read_text : string -> result string;
}.

(** The constants of [llms_config] used by the handlers, and the name of
    the process-wide temporary directory. *)
Record Config := mkConfig {
  DEFAULT_VISION_MODEL : string;
  DEFAULT_IMAGE_GEN_MODEL : string;
  DEFAULT_WHISPER_MODEL : string;
  temp_dir_name : string;
}.

(** The route names of [constants.SemanticRouterType] that [app.py]
    compares against. *)
Record SemanticRouterType := mkSemanticRouterType {
  IMAGE_GENERATION : string;
  VISION_IMAGE_PROCESSING : string;
}.

(** The initial values of the settings widgets ([conf.DEFAULT_MODEL] and
    the like), which [cl.ChatSettings(...).send()] returns at chat start. *)
Record Defaults := mkDefaults { initial_settings : Settings }.

(** ** Local objects of a turn *)

(** A file element of an inbound message: [str(file.path)], [file.mime]. *)
Record FileElement := mkFileElement {
  file_path : string;
  file_mime : option string;
}.

(** The inbound [cl.Message]: what the handlers read of it. *)
Record InMessage := mkInMessage {
  in_content : string;
  in_elements : list FileElement;
}.

(** The response [cl.Message] that the chat handler streams into. *)
Record OutMessage := mkOutMessage {
  out_content : string;
  out_author : option string;
  out_actions : list Action;
}.

(** The local name [messages] of [on_message] and of its callees is either
    the very list object held by the session (so it sees later appends) or
    a list of its own: the [[]] of [get(...) or []], or what
    [trim_messages] returned. *)
Inductive messages_ref :=
| Stored
| Fresh (l : list Message).

(** [needle in hay] on Python strings. *)
Fixpoint contains (needle hay : string) : bool :=
  String.prefix needle hay ||
  match hay with
  | EmptyString => false
  | String _ rest => contains needle rest
  end.

(** Python truth value of what [__get_settings] returns for a switch:
    [None] (no settings) and [False] are falsy. *)
Definition truthy (v : option bool) : bool := default false v.

(** [v is False] *)
Definition is_False (v : option bool) : bool :=
  match v with Some false => true | _ => false end.

Definition set_message_history (h : option (list Message)) (s : UserSession)
  : UserSession :=
  mkUserSession h (chat_settings s) (key_chat_model s) (key_vision_model s)
    (key_use_dynamic_conversation_routing s) (key_tts_model s)
    (key_tts_voice_preset_model s) (key_enable_tts_response s).

Definition set_chat_settings (c : option Settings) (s : UserSession)
  : UserSession :=
  mkUserSession (message_history s) c (key_chat_model s) (key_vision_model s)
    (key_use_dynamic_conversation_routing s) (key_tts_model s)
    (key_tts_voice_preset_model s) (key_enable_tts_response s).

Definition set_key_chat_model (v : string) (s : UserSession) : UserSession :=
  mkUserSession (message_history s) (chat_settings s) (Some v)
    (key_vision_model s) (key_use_dynamic_conversation_routing s)
    (key_tts_model s) (key_tts_voice_preset_model s)
    (key_enable_tts_response s).

Definition speak_action (value : string) : Action :=
  mkAction "speak_chat_response_action" value "Speak response".

Definition system_message : Message :=
  mkMessage "system"
    "You are a helpful assistant who tries their best to answer questions: ".

Definition greeting : string :=
  "Hello! I'm here to assist you. Please don't hesitate to ask me anything you'd like to know.".

(** What an element was given as url, path or content. *)
Definition element_payload (el : element) : string :=
  match el with
  | ImageUrl url _ => url
  | ImagePath path _ => path
  | Text _ content => content
  | Audio _ path => path
  end.

(** The exception of the element constructor. *)
Definition missing_payload : exn :=
  mkExn "<class 'ValueError'>"
    "Must provide url, path or content to instantiate element".

(** [cl.Image(...)], [cl.Text(...)], [cl.Audio(...)]: the constructor raises
    when url, path and content are all empty. *)
Definition new_element (el : element) : M element :=
  if Nat.eqb (String.length (element_payload el)) 0
  then raise missing_payload
  else ret el.

(** ** The handlers of app.py *)

Section App.

Variable conf : Config.
Variable defaults : Defaults.
Variable route_type : SemanticRouterType.
Variable env : Services.

(** [__get_settings(key)]: [None] when the session has no [chat_settings].
    A settings dict always holds every widget's key here; a session that
    holds a dict without the key (before [start_chat] has run) is not
    represented, and the theorems on settings are about sessions that have
    them. *)
Definition __get_settings {A} (key : Settings -> A) : M (option A) :=
  let* s := get_session in
  match chat_settings s with
  | None => ret None
  | Some settings => ret (Some (key settings))
  end.

(** [__update_messages_history_with_context(context, role)].  The append
    lands in the stored list only when [get("message_history")] is a
    non-empty list; otherwise [... or []] makes a list that is dropped. *)
Definition __update_messages_history_with_context (context role : string)
  : M unit :=
  if Nat.eqb (String.length role) 0 || Nat.eqb (String.length context) 0
  then ret tt
  else
    let* s := get_session in
    match message_history s with
    | Some (m :: ms) =>
        set_session
          (set_message_history (Some ((m :: ms) ++ [mkMessage role context])) s)
    | _ => ret tt
    end.

Definition __update_user_messages_history_with_context (context : string)
  : M unit :=
  __update_messages_history_with_context context "user".

Definition __update_assistant_messages_history_with_context (context : string)
  : M unit :=
  __update_messages_history_with_context context "assistant".

(** The list that the name [messages] denotes now. *)
Definition deref (messages : messages_ref) : M (list Message) :=
  match messages with
  | Stored => let* s := get_session in ret (default [] (message_history s))
  | Fresh l => ret l
  end.

(** The generic failure message: it carries [type(e)] and [e]. *)
Definition failure_message (e : exn) : string :=
  "Something went wrong, please try again. Error type: "
    +:+ exn_type e +:+ ", Error: " +:+ exn_text e.

(** [__handle_exception_error(e)] *)
Definition __handle_exception_error (e : exn) : M unit :=
  emit (Send None (failure_message e) [] []).

(** [async for part in stream: if token := ... or "": stream_token(token)];
    [stream_token] extends the content of the message. *)
Fixpoint stream_tokens (ps : list (option string)) (current_message : OutMessage)
  : M OutMessage :=
  match ps with
  | [] => ret current_message
  | part :: rest =>
      let token := default "" part in
      if Nat.eqb (String.length token) 0
      then stream_tokens rest current_message
      else
        let* _ := emit (StreamToken token) in
        stream_tokens rest
          (mkOutMessage (out_content current_message +:+ token)
             (out_author current_message) (out_actions current_message))
  end.

(** [__handle_trigger_async_chat(llm_model, messages, current_message)] *)
Definition __handle_trigger_async_chat (llm_model : option string)
    (messages : messages_ref) (current_message : OutMessage) : M unit :=
  let* _ := enter (ChatCompletionHandler llm_model) in
  try_except
    (let* msgs := deref messages in
     let* stream := call (CallCompletion llm_model msgs)
                      (acompletion_stream env llm_model msgs) in
     let* current_message := stream_tokens (parts stream) current_message in
     let* _ := match broken stream with
               | Some e => raise e
               | None => ret tt
               end in
     let content := out_content current_message in
     let* _ := __update_assistant_messages_history_with_context content in
     let* enable_tts_response := __get_settings SETTINGS_ENABLE_TTS_RESPONSE in
     let actions := if truthy enable_tts_response
                    then [speak_action content]
                    else out_actions current_message in
     emit (Update content actions))
    __handle_exception_error.

(** The first message of [__handle_trigger_async_image_gen]. *)
Definition image_gen_announcement (image_gen_model : string) : string :=
  "Sure! I'll use the `" +:+ image_gen_model +:+
  "` model to create an image based on your description. This might take a moment, please be patient.".

(** [__handle_trigger_async_image_gen(query)] *)
Definition __handle_trigger_async_image_gen (query : string) : M unit :=
  let* _ := enter (ImageGenerationHandler query) in
  let image_gen_model := DEFAULT_IMAGE_GEN_MODEL conf in
  let* _ := emit (Send (Some image_gen_model)
                    (image_gen_announcement image_gen_model) [] []) in
  try_except
    (let* image_gen_data :=
       call (CallImageGeneration query image_gen_model)
         (aimage_generation env query image_gen_model) in
     let image_url := fst image_gen_data in
     let revised_prompt := snd image_gen_data in
     let* image := new_element (ImageUrl image_url query) in
     let* description := new_element (Text "Description" revised_prompt) in
     let* _ := __update_assistant_messages_history_with_context revised_prompt in
     emit (Send (Some image_gen_model)
             "Here's the image, along with a refined description based on your input:"
             [image; description]
             [speak_action revised_prompt]))
    __handle_exception_error.

(** The capability-mismatch notice of [__handle_vision]. *)
Definition unsupported_vision_notice (vision_model : option string) : string :=
  "It seems the vision model `" +:+ default "None" vision_model +:+
  "` doesn't support image processing. Please choose a different model in Settings that offers Vision capabilities.".

(** The message of [__handle_vision] before the completion call. *)
Definition vision_announcement (vision_model : option string) : string :=
  "Analyzing the image using the `" +:+ default "None" vision_model +:+
  "` model... This might take a moment. 🔎".

(** [__handle_vision(input_image, prompt, is_local)] *)
Definition __handle_vision (input_image prompt : string) (is_local : bool)
  : M unit :=
  let* _ := enter (VisionHandler input_image prompt is_local) in
  let* vision_model :=
    if is_local then ret (Some (DEFAULT_VISION_MODEL conf))
    else __get_settings SETTINGS_VISION_MODEL in
  let* _ := emit (CallSupportsVision vision_model) in
  if negb (supports_vision env vision_model) then
    emit (Send None (unsupported_vision_notice vision_model) [] [])
  else
    let* _ := emit (Send vision_model (vision_announcement vision_model)
                      [] []) in
    let* description :=
      call (CallVisionCompletion vision_model prompt input_image)
        (acompletion_vision env vision_model prompt input_image) in
    let* image := new_element (if is_local then ImagePath input_image prompt
                               else ImageUrl input_image prompt) in
    let* explain := new_element (Text "Explain" description) in
    let* _ := __update_assistant_messages_history_with_context description in
    emit (Send vision_model "" [image; explain]
            [speak_action description]).

(** [__handle_audio_transcribe(path, audio_file)] *)
Definition __handle_audio_transcribe (path : string) : M string :=
  let* _ := enter (TranscriptionHandler path) in
  let model := DEFAULT_WHISPER_MODEL conf in
  let* text := call (CallTranscription model path)
                 (transcriptions_create env model path) in
  let* audio := new_element (Audio "Audio" path) in
  let* transcript := new_element (Text "Transcript" text) in
  let* _ := emit (Send (Some model) "" [audio; transcript] []) in
  let* _ := __update_assistant_messages_history_with_context text in
  ret text.

(** [__handle_tts_response(context)] *)
Definition __handle_tts_response (context : string) : M unit :=
  let* _ := enter (TextToSpeechHandler context) in
  let* enable_tts_response := __get_settings SETTINGS_ENABLE_TTS_RESPONSE in
  if is_False enable_tts_response then ret tt
  else if Nat.eqb (String.length context) 0 then ret tt
  else
    let* model := __get_settings SETTINGS_TTS_MODEL in
    let* voice := __get_settings SETTINGS_TTS_VOICE_PRESET_MODEL in
    let* _ := call (CallSpeech model voice context)
                (speech_create env model voice context) in
    let temp_filepath := temp_dir_name conf +:+ "/tts-output.mp3" in
    let* _ := emit (StreamToFile temp_filepath) in
    let* _ := emit (Send model
                      ("You're hearing an AI voice generated by OpenAI's " +:+
                       default "None" model +:+ " model, using the " +:+
                       default "None" voice +:+
                       " style.  You can customize this in Settings if you'd like!")
                      [Text "Context" context; Audio "" temp_filepath] []) in
    __update_assistant_messages_history_with_context context.

(** [on_speak_chat_response(action)] *)
Definition on_speak_chat_response (action : Action) : M unit :=
  let* _ := emit (RemoveAction action) in
  let value := action_value action in
  __handle_tts_response value.

(** [name == SemanticRouterType.X] on the name the classifier returned
    ([None] when no route matched). *)
Definition route_is (name : option string) (member : string) : bool :=
  bool_decide (name = Some member).

(** [__handle_dynamic_conversation_routing_chat(messages, model, msg, query)] *)
Definition __handle_dynamic_conversation_routing_chat (messages : messages_ref)
    (model : option string) (msg : OutMessage) (query : string) : M unit :=
  let* route_choice_name := call (CallRouteLayer query) (route_layer env query) in
  let* should_trimmed_messages := __get_settings SETTINGS_TRIMMED_MESSAGES in
  let* messages :=
    if truthy should_trimmed_messages then
      let* msgs := deref messages in
      ret (Fresh (trim_messages env msgs model))
    else ret messages in
  if route_is route_choice_name (IMAGE_GENERATION route_type) then
    __handle_trigger_async_image_gen query
  else if route_is route_choice_name (VISION_IMAGE_PROCESSING route_type) then
    let urls := extract_url env query in
    match urls with
    | url :: _ => __handle_vision url query false
    | [] => __handle_trigger_async_chat model messages msg
    end
  else __handle_trigger_async_chat model messages msg.

(** [__handle_conversation(message, messages)] *)
Definition __handle_conversation (message : InMessage) (messages : messages_ref)
  : M unit :=
  let* model := __get_settings SETTINGS_CHAT_MODEL in
  let msg := mkOutMessage "" model [] in
  let* _ := emit (Send model "" [] []) in
  let query := in_content message in
  let* _ := __update_user_messages_history_with_context query in
  let* use_dynamic_conversation_routing :=
    __get_settings SETTINGS_USE_DYNAMIC_CONVERSATION_ROUTING in
  if truthy use_dynamic_conversation_routing then
    __handle_dynamic_conversation_routing_chat messages model msg query
  else __handle_trigger_async_chat model messages msg.

(** The body of the loop of [__handle_files_attachment] for one file. *)
Definition handle_file (message : InMessage) (messages : messages_ref)
    (prompt : string) (file : FileElement) : M unit :=
  let path := file_path file in
  let mime_type := default "" (file_mime file) in
  if contains "image" mime_type then __handle_vision path prompt true
  else if contains "text" mime_type then
    let* s := call (ReadText path) (read_text env path) in
    __handle_conversation (mkInMessage s (in_elements message)) messages
  else if contains "audio" mime_type then
    let* _ := __handle_audio_transcribe path in ret tt
  else ret tt.

(** [__handle_files_attachment(message, messages)] *)
Definition __handle_files_attachment (message : InMessage)
    (messages : messages_ref) : M unit :=
  match in_elements message with
  | [] => emit (Send None "No file attached" [] [])
  | _ :: _ =>
      let prompt := in_content message in
      let* _ := __update_user_messages_history_with_context prompt in
      for_each (handle_file message messages prompt) (in_elements message)
  end.

(** [cl.user_session.get("message_history") or []]: the stored list
    itself when it is a non-empty list, a new empty list otherwise. *)
Definition session_messages (s : UserSession) : messages_ref :=
  match message_history s with
  | Some (_ :: _) => Stored
  | _ => Fresh []
  end.

(** [on_message(message)] *)
Definition on_message (message : InMessage) : M unit :=
  let* s := get_session in
  let messages := session_messages s in
  if Nat.ltb 0 (length (in_elements message))
  then __handle_files_attachment message messages
  else __handle_conversation message messages.

(** [update_settings(settings)]: six keys of the session are set.  The
    framework has replaced [chat_settings] by [settings] before it calls
    the hook. *)
Definition update_settings (settings : Settings) : M unit :=
  let* s := get_session in
  set_session
    (mkUserSession (message_history s) (Some settings)
       (Some (SETTINGS_CHAT_MODEL settings))
       (Some (SETTINGS_VISION_MODEL settings))
       (Some (SETTINGS_USE_DYNAMIC_CONVERSATION_ROUTING settings))
       (Some (SETTINGS_TTS_MODEL settings))
       (Some (SETTINGS_TTS_VOICE_PRESET_MODEL settings))
       (Some (SETTINGS_ENABLE_TTS_RESPONSE settings))).

(** [__build_settings()]: sending the widgets stores their initial values
    as the session's [chat_settings] and returns them. *)
Definition __build_settings : M Settings :=
  let settings := initial_settings defaults in
  let* s := get_session in
  let* _ := set_session (set_chat_settings (Some settings) s) in
  ret settings.

(** [__config_chat_session(settings)] *)
Definition __config_chat_session (settings : Settings) : M unit :=
  let* s := get_session in
  let* _ := set_session (set_key_chat_model (SETTINGS_CHAT_MODEL settings) s) in
  let* s := get_session in
  let* _ := set_session (set_message_history (Some [system_message]) s) in
  let msg := greeting in
  let* _ := emit (Send None msg [] []) in
  __update_assistant_messages_history_with_context msg.

(** [start_chat()].  [build_llm_profile] only sends the chat profiles to
    the UI and is left out. *)
Definition start_chat : M unit :=
  let* settings := __build_settings in
  __config_chat_session settings.

(** Every operation that runs in an initialized session: the three hooks
    of the framework, and the handlers and helpers they are made of. *)
Inductive operation :=
| OnMessage (message : InMessage)
| UpdateSettings (settings : Settings)
| OnSpeakChatResponse (action : Action)
| HandleConversation (message : InMessage) (messages : messages_ref)
| HandleFilesAttachment (message : InMessage) (messages : messages_ref)
| HandleDynamicConversationRoutingChat (messages : messages_ref)
    (model : option string) (msg : OutMessage) (query : string)
| HandleTriggerAsyncChat (llm_model : option string) (messages : messages_ref)
    (current_message : OutMessage)
| HandleTriggerAsyncImageGen (query : string)
| HandleVision (input_image prompt : string) (is_local : bool)
| HandleAudioTranscribe (path : string)
| HandleTtsResponse (context : string)
| UpdateMessagesHistoryWithContext (context role : string).

Definition perform (op : operation) : M unit :=
  match op with
  | OnMessage message => on_message message
  | UpdateSettings settings => update_settings settings
  | OnSpeakChatResponse action => on_speak_chat_response action
  | HandleConversation message messages =>
      __handle_conversation message messages
  | HandleFilesAttachment message messages =>
      __handle_files_attachment message messages
  | HandleDynamicConversationRoutingChat messages model msg query =>
      __handle_dynamic_conversation_routing_chat messages model msg query
  | HandleTriggerAsyncChat llm_model messages current_message =>
      __handle_trigger_async_chat llm_model messages current_message
  | HandleTriggerAsyncImageGen query => __handle_trigger_async_image_gen query
  | HandleVision input_image prompt is_local =>
      __handle_vision input_image prompt is_local
  | HandleAudioTranscribe path =>
      let* _ := __handle_audio_transcribe path in ret tt
  | HandleTtsResponse context => __handle_tts_response context
  | UpdateMessagesHistoryWithContext context role =>
      __update_messages_history_with_context context role
  end.

End App.

(** ** Sessions *)

(** The world after an operation, whether it returned or raised (the
    framework takes an exception that escapes a hook; the session goes on). *)
Definition after (conf : Config) (route_type : SemanticRouterType)
    (env : Services) (op : operation) (w : World) : World :=
  world_of (perform conf route_type env op w).

(** A session: [start_chat], then operations, each with the answers the
    remote services give during it. *)
Fixpoint run (conf : Config) (route_type : SemanticRouterType)
    (ops : list (Services * operation)) (w : World) : World :=
  match ops with
  | [] => w
  | (env, op) :: rest =>
      run conf route_type rest (after conf route_type env op w)
  end.

Definition session_world (conf : Config) (defaults : Defaults)
    (route_type : SemanticRouterType) (ops : list (Services * operation))
    (w0 : World) : World :=
  run conf route_type ops (world_of (start_chat defaults w0)).

(** ** Vocabulary of the specification *)

(** [w'] extends [w]: the stored history, the effect log and the handler
    log of [w] are prefixes of those of [w']. *)
Definition extends (w w' : World) : Prop :=
  history w `prefix_of` history w' /\
  effects w `prefix_of` effects w' /\
  invoked w `prefix_of` invoked w'.

(** No handler is entered between [w] and [w']. *)
Definition same_invoked (w w' : World) : Prop := invoked w' = invoked w.

(** A computation whose final world, returned or raised, is related by
    [R] to the world it started from. *)
Definition respects (R : World -> World -> Prop) {A} (m : M A) : Prop :=
  forall w, R w (world_of (m w)).

Abbreviation monotone := (respects extends).
Abbreviation quiet := (respects same_invoked).

(** A computation that returns in every world: no exception leaves it. *)
Definition never_raises {A} (m : M A) : Prop :=
  forall w, exists a w', m w = Returned a w'.

(** An effect that is not a call to the classifier. *)
Definition not_router_call (e : effect) : Prop :=
  match e with
  | CallRouteLayer _ => False
  | _ => True
  end.

(** The session is seeded: its stored history starts with the system
    message. *)
Definition seeded (w : World) : Prop :=
  exists rest, message_history (session w) = Some (system_message :: rest).

(** The recognized roles of the spec's data model. *)
Definition recognized_roles : list string := ["system"; "user"; "assistant"].

Definition recognized (r : string) : Prop := r ∈ recognized_roles.

(** What the append does to a world, as a function. *)
Definition appended (context role : string) (w : World) : World :=
  if Nat.eqb (String.length role) 0 || Nat.eqb (String.length context) 0
  then w
  else match message_history (session w) with
       | Some (m :: ms) =>
           mkWorld
             (set_message_history
                (Some ((m :: ms) ++ [mkMessage role context])) (session w))
             (effects w) (invoked w)
       | _ => w
       end.

(** The list that [messages] denotes in world [w]. *)
Definition denoted (messages : messages_ref) (w : World) : list Message :=
  match messages with
  | Stored => history w
  | Fresh l => l
  end.

(** The tokens of a stream that reach the UI: the non-empty contents. *)
Definition tokens_of (ps : list (option string)) : list string :=
  filter (fun t => Nat.eqb (String.length t) 0 = false) (map (default "") ps).

(** The model [__handle_vision] resolves: the hardcoded default for a local
    file, the session's setting otherwise. *)
Definition resolved_vision_model (conf : Config) (is_local : bool) (w : World)
  : option string :=
  if is_local then Some (DEFAULT_VISION_MODEL conf)
  else SETTINGS_VISION_MODEL <$> chat_settings (session w).

(** The "enable TTS response" setting is present and [False]. *)
Definition tts_disabled (w : World) : Prop :=
  SETTINGS_ENABLE_TTS_RESPONSE <$> chat_settings (session w) = Some false.

(** The routing outcomes that fall back to chat completion: the name is
    neither of the two special routes (the default route, no route, or any
    other name), or it is the vision route and the query holds no URL. *)
Definition falls_back (route_type : SemanticRouterType)
    (name : option string) (urls : list string) : Prop :=
  (name <> Some (IMAGE_GENERATION route_type) /\
   name <> Some (VISION_IMAGE_PROCESSING route_type)) \/
  (name = Some (VISION_IMAGE_PROCESSING route_type) /\ urls = []).

(** A file element is image-typed as [__handle_files_attachment] tests it. *)
Definition image_typed (file : FileElement) : Prop :=
  contains "image" (default "" (file_mime file)) = true.

(** The concatenation of the tokens, as [stream_token] builds the
    content. *)
Definition joined (ts : list string) : string :=
  fold_right String.append "" ts.

(** The MIME tests of the loop of [__handle_files_attachment]. *)
Definition text_typed (file : FileElement) : Prop :=
  contains "text" (default "" (file_mime file)) = true.

Definition audio_typed (file : FileElement) : Prop :=
  contains "audio" (default "" (file_mime file)) = true.

(** A file that none of the three branches of the loop takes. *)
Definition unmatched (file : FileElement) : Prop :=
  contains "image" (default "" (file_mime file)) = false /\
  contains "text" (default "" (file_mime file)) = false /\
  contains "audio" (default "" (file_mime file)) = false.

(** The session without the per-key entries that [update_settings] and
    [__config_chat_session] write: the history and [chat_settings] only. *)
Definition erase_keys (s : UserSession) : UserSession :=
  mkUserSession (message_history s) (chat_settings s)
    None None None None None None.

Definition erase (w : World) : World :=
  mkWorld (erase_keys (session w)) (effects w) (invoked w).

Definition erase_outcome {A} (o : outcome A) : outcome A :=
  match o with
  | Returned a w => Returned a (erase w)
  | Raised e w => Raised e (erase w)
  end.

(** The outcome of [m] does not depend on the per-key entries: from two
    worlds that differ in them only, [m] returns the same value or raises
    the same exception, in worlds that differ in them only. *)
Definition ignores_keys {A} (m : M A) : Prop :=
  forall w1 w2, erase w1 = erase w2 ->
    erase_outcome (m w1) = erase_outcome (m w2).

(** The message that accompanies the synthesized audio. *)
Definition tts_announcement (model voice : option string) : string :=
  "You're hearing an AI voice generated by OpenAI's " +:+
  default "None" model +:+ " model, using the " +:+
  default "None" voice +:+
  " style.  You can customize this in Settings if you'd like!".

(** The session holds no history list that an append could extend: the
    key is unset or holds the empty list. *)
Definition unseeded (w : World) : Prop :=
  session_messages (session w) = Fresh [].

(** From an unseeded world, the stored history stays what it is. *)
Definition keeps_unseeded (w w' : World) : Prop :=
  unseeded w -> message_history (session w') = message_history (session w).

(** Nothing of the session changes but the history. *)
Definition same_settings (w w' : World) : Prop :=
  set_message_history None (session w')
  = set_message_history None (session w).

Definition is_update_settings (op : operation) : bool :=
  match op with
  | UpdateSettings _ => true
  | _ => false
  end.

(** What [__get_settings(key)] returns in world [w]. *)
Definition setting {A} (key : Settings -> A) (w : World) : option A :=
  key <$> chat_settings (session w).

(** Sample values for the examples below. *)
Module Sample.

Definition settings : Settings :=
  mkSettings "gpt-4o" "gemini-pro-vision" false "tts-1" "nova" true false.

Definition conf : Config :=
  mkConfig "gpt-4-vision-preview" "dall-e-3" "whisper-1" "/tmp/vtai".

Definition route_type : SemanticRouterType :=
  mkSemanticRouterType "image-generation" "vision-image-processing".

(** An initialized session with dynamic routing on and TTS off. *)
Definition world : World :=
  world_of (start_chat (mkDefaults settings) empty_world).

Definition unreachable : exn :=
  mkExn "<class 'openai.APIConnectionError'>" "Connection error.".

(** Services that fail on every remote call. *)
Definition offline : Services :=
  mkServices (fun _ => Err unreachable) (fun _ => [])
    (fun l _ => l) (fun _ _ => Err unreachable)
    (fun _ _ => Err unreachable) (fun _ => true)
    (fun _ _ _ => Err unreachable) (fun _ _ => Err unreachable)
    (fun _ _ _ => Err unreachable) (fun _ => Err unreachable).

(** Services that answer every call; the classifier answers [name], the
    image service returns [revised_prompt], the selected vision model has
    vision support or not as [vision] says. *)
Definition online (name : option string) (revised_prompt : string)
    (vision : bool) : Services :=
  mkServices (fun _ => Ok name) (fun _ => [])
    (fun l _ => l) (fun _ _ => Ok (mkStream [Some "Hi"; None; Some "!"] None))
    (fun _ _ => Ok ("https://img.example/1.png", revised_prompt))
    (fun _ => vision)
    (fun _ _ _ => Ok "A cat.") (fun _ _ => Ok "memo")
    (fun _ _ _ => Ok tt) (fun _ => Ok "notes").

(** The remote services answer, except the classifier, which is down. *)
Definition classifier_down : Services :=
  mkServices (fun _ => Err unreachable) (fun _ => [])
    (fun l _ => l) (fun _ _ => Ok (mkStream [Some "Hi"] None))
    (fun _ _ => Ok ("https://img.example/1.png", "A cat"))
    (fun _ => true)
    (fun _ _ _ => Ok "A cat.") (fun _ _ => Ok "memo")
    (fun _ _ _ => Ok tt) (fun _ => Ok "notes").

End Sample.

(** More services for the examples. *)
Module Scenario.

(** The completion stream breaks after two tokens. *)
Definition breaking_stream : Services :=
  mkServices (fun _ => Ok None) (fun _ => [])
    (fun l _ => l)
    (fun _ _ => Ok (mkStream [Some "Par"; Some "tial"]
                      (Some Sample.unreachable)))
    (fun _ _ => Err Sample.unreachable) (fun _ => true)
    (fun _ _ _ => Err Sample.unreachable) (fun _ _ => Err Sample.unreachable)
    (fun _ _ _ => Err Sample.unreachable) (fun _ => Err Sample.unreachable).

(** The classifier answers the vision route and the query holds a URL;
    [trim_messages] keeps the first message only. *)
Definition vision_route : Services :=
  mkServices (fun _ => Ok (Some "vision-image-processing"))
    (fun _ => ["https://img.example/cat.png"; "https://img.example/dog.png"])
    (fun l _ => take 1 l)
    (fun _ _ => Ok (mkStream [Some "Hi"; None; Some "!"] None))
    (fun _ _ => Ok ("https://img.example/1.png", "A cat"))
    (fun _ => true)
    (fun _ _ _ => Ok "A cat.") (fun _ _ => Ok "memo")
    (fun _ _ _ => Ok tt) (fun _ => Ok "notes").

(** The classifier answers no route; [trim_messages] keeps the first
    message only. *)
Definition trimming : Services :=
  mkServices (fun _ => Ok None) (fun _ => [])
    (fun l _ => take 1 l)
    (fun _ _ => Ok (mkStream [Some "Hi"; None; Some "!"] None))
    (fun _ _ => Ok ("https://img.example/1.png", "A cat"))
    (fun _ => true)
    (fun _ _ _ => Ok "A cat.") (fun _ _ => Ok "memo")
    (fun _ _ _ => Ok tt) (fun _ => Ok "notes").

(** Settings with text-to-speech on, routing off, trimming on. *)
Definition speaking : Settings :=
  mkSettings "gpt-4o" "gemini-pro-vision" true "tts-1" "nova" false true.

(** Settings with routing on and trimming on. *)
Definition trimmed : Settings :=
  mkSettings "gpt-4o" "gemini-pro-vision" false "tts-1" "nova" true true.

Definition speaking_world : World :=
  world_of (start_chat (mkDefaults speaking) empty_world).

Definition trimmed_world : World :=
  world_of (start_chat (mkDefaults trimmed) empty_world).

End Scenario.

Example sample_world_history :
  history Sample.world = [system_message; mkMessage "assistant" greeting].
Proof. reflexivity. Qed.

(** A plain chat turn: the query and the streamed answer are stored, and
    the completion service was sent the stored list with the query. *)
Example sample_chat_turn :
  let w := world_of (on_message Sample.conf Sample.route_type
                       (Sample.online None "" true)
                       (mkInMessage "hello" []) Sample.world) in
  history w
  = [system_message; mkMessage "assistant" greeting;
     mkMessage "user" "hello"; mkMessage "assistant" "Hi!"] /\
  effects w
  = effects Sample.world ++
      [Send (Some "gpt-4o") "" [] [];
       CallRouteLayer "hello";
       CallCompletion (Some "gpt-4o")
         [system_message; mkMessage "assistant" greeting;
          mkMessage "user" "hello"];
       StreamToken "Hi"; StreamToken "!";
       Update "Hi!" []].
Proof. split; reflexivity. Qed.

(** ** Running a handler *)

(** Run the monadic plumbing of a handler applied to a world. *)
Ltac exec :=
  repeat (progress
    (cbv beta iota zeta delta
       [bind ret raise emit enter call get_session set_session try_except
        __get_settings];
     simpl)).

Lemma new_element_built el w :
  element_payload el <> "" -> new_element el w = Returned el w.
Proof.
  intros H. unfold new_element.
  destruct (Nat.eqb _ _) eqn:E; [|done].
  destruct (element_payload el); [done | discriminate].
Qed.

Lemma new_element_refused el w :
  element_payload el = "" -> new_element el w = Raised missing_payload w.
Proof. intros H. unfold new_element. by rewrite H. Qed.

Lemma length_zero_iff_empty (s : string) :
  Nat.eqb (String.length s) 0 = true <-> s = "".
Proof. destruct s; simpl; split; intros H; done. Qed.

Lemma length_nonzero (s : string) :
  s <> "" -> Nat.eqb (String.length s) 0 = false.
Proof.
  intros H. destruct (Nat.eqb _ _) eqn:E; [|done].
  by apply length_zero_iff_empty in E.
Qed.

Lemma update_messages_history_returns context role w :
  __update_messages_history_with_context context role w
  = Returned tt (appended context role w).
Proof.
  unfold __update_messages_history_with_context, appended.
  destruct (_ || _); [done|].
  unfold bind, get_session, set_session.
  destruct (message_history (session w)) as [[|m ms]|]; done.
Qed.

Lemma update_assistant_returns context w :
  __update_assistant_messages_history_with_context context w
  = Returned tt (appended context "assistant" w).
Proof. apply update_messages_history_returns. Qed.

Lemma update_user_returns context w :
  __update_user_messages_history_with_context context w
  = Returned tt (appended context "user" w).
Proof. apply update_messages_history_returns. Qed.

Lemma history_appended context role w :
  history w `prefix_of` history (appended context role w).
Proof.
  unfold appended. destruct (_ || _); [done|].
  unfold history.
  destruct (message_history (session w)) as [[|m ms]|] eqn:E; rewrite ?E; try done.
  simpl. by apply prefix_cons, prefix_app_r.
Qed.

Lemma effects_appended context role w :
  effects (appended context role w) = effects w.
Proof.
  unfold appended. destruct (_ || _); [done|].
  by destruct (message_history (session w)) as [[|m ms]|].
Qed.

Lemma invoked_appended context role w :
  invoked (appended context role w) = invoked w.
Proof.
  unfold appended. destruct (_ || _); [done|].
  by destruct (message_history (session w)) as [[|m ms]|].
Qed.

(** What the append stores depends on the session only. *)
Lemma session_appended context role w es hs :
  session (appended context role (mkWorld (session w) es hs))
  = session (appended context role w).
Proof.
  unfold appended. simpl. destruct (_ || _); [done|].
  by destruct (message_history (session w)) as [[|m ms]|].
Qed.

Lemma appended_eta context role w :
  appended context role w
  = mkWorld (session (appended context role w)) (effects w) (invoked w).
Proof.
  unfold appended. destruct (_ || _); [by destruct w|].
  destruct (message_history (session w)) as [[|m ms]|]; by destruct w.
Qed.

Lemma chat_settings_appended context role w :
  chat_settings (session (appended context role w)) = chat_settings (session w).
Proof.
  unfold appended. destruct (_ || _); [done|].
  by destruct (message_history (session w)) as [[|m ms]|].
Qed.

(** In an initialized session a non-empty content is stored, once. *)
Lemma history_appended_stored context role w m ms :
  message_history (session w) = Some (m :: ms) ->
  role <> "" -> context <> "" ->
  history (appended context role w) = history w ++ [mkMessage role context].
Proof.
  intros Hh Hr Hc. unfold appended, history.
  rewrite (length_nonzero role Hr), (length_nonzero context Hc), Hh. done.
Qed.

Lemma deref_returns messages w :
  deref messages w = Returned (denoted messages w) w.
Proof. by destruct messages. Qed.

Lemma stream_tokens_returns ps current_message w :
  exists cm,
    stream_tokens ps current_message w
    = Returned cm
        (mkWorld (session w) (effects w ++ map StreamToken (tokens_of ps))
           (invoked w)).
Proof.
  revert current_message w. induction ps as [|p ps IH]; intros cm w; simpl.
  - exists cm. unfold ret, tokens_of. simpl. rewrite app_nil_r. by destruct w.
  - unfold tokens_of. simpl. rewrite filter_cons.
    destruct (Nat.eqb (String.length (default "" p)) 0) eqn:E.
    + destruct (decide (true = false)) as [?|_]; [done|]. apply IH.
    + destruct (decide (false = false)) as [_|?]; [|done].
      exec. edestruct IH as [cm' ->]. exists cm'. simpl.
      by rewrite <- app_assoc.
Qed.

Lemma for_each_app {A} (body : A -> M unit) xs ys w :
  for_each body (xs ++ ys) w
  = (let* _ := for_each body xs in for_each body ys) w.
Proof.
  revert w. induction xs as [|x xs IH]; intros w; simpl; [done|].
  unfold bind in *. destruct (body x w) as [[] w1|e w1]; [apply IH | done].
Qed.

(** ** Relations that every step respects *)

#[global] Instance extends_preorder : PreOrder extends.
Proof.
  split.
  - intros w. by repeat split.
  - intros w1 w2 w3 (H1 & H2 & H3) (K1 & K2 & K3).
    repeat split; etrans; eauto.
Qed.

#[global] Instance same_invoked_preorder : PreOrder same_invoked.
Proof.
  split.
  - by intros w.
  - intros w1 w2 w3 H K. unfold same_invoked in *. congruence.
Qed.

Section Respects.

Context (R : World -> World -> Prop) `{!PreOrder R}.
Hypothesis R_emit : forall e, respects R (emit e).
Hypothesis R_append : forall context role,
  respects R (__update_messages_history_with_context context role).

Lemma respects_ret {A} (a : A) : respects R (ret a).
Proof. intros w. simpl. reflexivity. Qed.

Lemma respects_raise {A} (e : exn) : respects R (@raise A e).
Proof. intros w. simpl. reflexivity. Qed.

Lemma respects_get_session : respects R get_session.
Proof. intros w. simpl. reflexivity. Qed.

Lemma respects_bind {A B} (m : M A) (k : A -> M B) :
  respects R m -> (forall a, respects R (k a)) -> respects R (bind m k).
Proof.
  intros Hm Hk w. unfold bind. specialize (Hm w).
  destruct (m w) as [a w'|e w']; simpl in *; [|done].
  etrans; [exact Hm | apply Hk].
Qed.

Lemma respects_try_except {A} (body : M A) (handler : exn -> M A) :
  respects R body -> (forall e, respects R (handler e)) ->
  respects R (try_except body handler).
Proof.
  intros Hm Hk w. unfold try_except. specialize (Hm w).
  destruct (body w) as [a w'|e w']; simpl in *; [done|].
  etrans; [exact Hm | apply Hk].
Qed.

Lemma respects_for_each {A} (body : A -> M unit) (xs : list A) :
  (forall x, respects R (body x)) -> respects R (for_each body xs).
Proof.
  intros Hb. induction xs as [|x xs IH]; simpl.
  - apply respects_ret.
  - apply respects_bind; auto.
Qed.

(** What follows a step only adds to what the step did. *)
Lemma respects_after_first {A B} (m : M A) (k : A -> M B) w :
  (forall a, respects R (k a)) -> R (world_of (m w)) (world_of (bind m k w)).
Proof.
  intros Hk. unfold bind. destruct (m w) as [a w'|e w']; simpl.
  - apply Hk.
  - reflexivity.
Qed.

Lemma respects_call {A} e (r : result A) : respects R (call e r).
Proof.
  apply respects_bind; [apply R_emit|].
  intros _. destruct r; [apply respects_ret | apply respects_raise].
Qed.

Lemma respects_get_settings {A} (key : Settings -> A) :
  respects R (__get_settings key).
Proof.
  apply respects_bind; [apply respects_get_session|].
  intros s. destruct (chat_settings s); apply respects_ret.
Qed.

Lemma respects_update_assistant context :
  respects R (__update_assistant_messages_history_with_context context).
Proof. apply R_append. Qed.

Lemma respects_update_user context :
  respects R (__update_user_messages_history_with_context context).
Proof. apply R_append. Qed.

Lemma respects_deref messages : respects R (deref messages).
Proof.
  destruct messages; simpl; [|apply respects_ret].
  apply respects_bind; [apply respects_get_session | intros; apply respects_ret].
Qed.

Lemma respects_handle_exception_error e :
  respects R (__handle_exception_error e).
Proof. apply R_emit. Qed.

Lemma respects_new_element el : respects R (new_element el).
Proof.
  unfold new_element.
  destruct (Nat.eqb _ _); [apply respects_raise | apply respects_ret].
Qed.

Lemma respects_stream_tokens ps current_message :
  respects R (stream_tokens ps current_message).
Proof.
  revert current_message. induction ps as [|p ps IH]; intros cm; simpl.
  - apply respects_ret.
  - destruct (Nat.eqb _ _); [apply IH|].
    apply respects_bind; [apply R_emit | intros; apply IH].
Qed.

End Respects.

Lemma monotone_emit e : monotone (emit e).
Proof. intros w. repeat split; simpl; try done. by apply prefix_app_r. Qed.

Lemma monotone_enter h : monotone (enter h).
Proof. intros w. repeat split; simpl; try done. by apply prefix_app_r. Qed.

Lemma monotone_append context role :
  monotone (__update_messages_history_with_context context role).
Proof.
  intros w. rewrite update_messages_history_returns. simpl.
  split; [apply history_appended|].
  by rewrite effects_appended, invoked_appended.
Qed.

Lemma quiet_emit e : quiet (emit e).
Proof. by intros w. Qed.

Lemma quiet_append context role :
  quiet (__update_messages_history_with_context context role).
Proof.
  intros w. rewrite update_messages_history_returns. apply invoked_appended.
Qed.

Create HintDb resp.

#[local] Hint Resolve monotone_emit monotone_enter monotone_append
  quiet_emit quiet_append : resp.
#[local] Hint Resolve respects_ret respects_raise respects_get_session
  respects_call respects_get_settings respects_update_assistant
  respects_update_user respects_deref respects_handle_exception_error
  respects_stream_tokens respects_new_element : resp.

(** Descend through the control structure of a handler. *)
Ltac resp_step :=
  match goal with
  | |- respects _ (bind _ _) => apply respects_bind; [exact _| |intros ?]
  | |- respects _ (try_except _ _) =>
      apply respects_try_except; [exact _| |intros ?]
  | |- respects _ (for_each _ _) =>
      apply respects_for_each; [exact _|intros ?]
  | |- respects _ (if ?b then _ else _) => destruct b
  | |- respects _ (match ?x with _ => _ end) => destruct x
  | |- respects _ _ => solve [eauto with resp typeclass_instances]
  end.

Ltac resp := cbv zeta; repeat resp_step.

(** ** Every operation extends the world *)

Section Monotone.

Variable conf : Config.
Variable route_type : SemanticRouterType.
Variable env : Services.

Lemma monotone_handle_trigger_async_chat llm_model messages current_message :
  monotone (__handle_trigger_async_chat env llm_model messages current_message).
Proof. unfold __handle_trigger_async_chat. resp. Qed.

Lemma monotone_handle_trigger_async_image_gen query :
  monotone (__handle_trigger_async_image_gen conf env query).
Proof. unfold __handle_trigger_async_image_gen. resp. Qed.

Lemma monotone_handle_vision input_image prompt is_local :
  monotone (__handle_vision conf env input_image prompt is_local).
Proof. unfold __handle_vision. resp. Qed.

Lemma monotone_handle_audio_transcribe path :
  monotone (__handle_audio_transcribe conf env path).
Proof. unfold __handle_audio_transcribe. resp. Qed.

Lemma monotone_handle_tts_response context :
  monotone (__handle_tts_response conf env context).
Proof. unfold __handle_tts_response. resp. Qed.

#[local] Hint Resolve monotone_handle_trigger_async_chat
  monotone_handle_trigger_async_image_gen monotone_handle_vision
  monotone_handle_audio_transcribe monotone_handle_tts_response : resp.

Lemma monotone_on_speak_chat_response action :
  monotone (on_speak_chat_response conf env action).
Proof. unfold on_speak_chat_response. resp. Qed.

Lemma monotone_handle_dynamic_conversation_routing_chat messages model msg query :
  monotone (__handle_dynamic_conversation_routing_chat
              conf route_type env messages model msg query).
Proof. unfold __handle_dynamic_conversation_routing_chat. resp. Qed.

#[local] Hint Resolve monotone_handle_dynamic_conversation_routing_chat : resp.

Lemma monotone_handle_conversation message messages :
  monotone (__handle_conversation conf route_type env message messages).
Proof. unfold __handle_conversation. resp. Qed.

#[local] Hint Resolve monotone_handle_conversation : resp.

Lemma monotone_handle_file message messages prompt file :
  monotone (handle_file conf route_type env message messages prompt file).
Proof. unfold handle_file. resp. Qed.

#[local] Hint Resolve monotone_handle_file : resp.

Lemma monotone_handle_files_attachment message messages :
  monotone (__handle_files_attachment conf route_type env message messages).
Proof. unfold __handle_files_attachment. resp. Qed.

#[local] Hint Resolve monotone_handle_files_attachment
  monotone_on_speak_chat_response : resp.

Lemma monotone_on_message message :
  monotone (on_message conf route_type env message).
Proof. unfold on_message. resp. Qed.

Lemma monotone_update_settings settings : monotone (update_settings settings).
Proof. intros w. by repeat split. Qed.

#[local] Hint Resolve monotone_on_message monotone_update_settings : resp.

Lemma monotone_perform op : monotone (perform conf route_type env op).
Proof. destruct op; simpl; resp. Qed.

End Monotone.

Lemma seeded_extends w w' : seeded w -> extends w w' -> seeded w'.
Proof.
  intros [rest Hw] ([k Hk] & _). unfold history in Hk.
  rewrite Hw in Hk. simpl in Hk.
  destruct (message_history (session w')) as [h|] eqn:E; simpl in Hk.
  - exists (rest ++ k). unfold seeded. by rewrite E, Hk.
  - discriminate.
Qed.

Lemma start_chat_history defaults w0 :
  message_history (session (world_of (start_chat defaults w0)))
  = Some [system_message; mkMessage "assistant" greeting].
Proof. reflexivity. Qed.

Lemma run_seeded conf route_type ops w :
  seeded w -> seeded (run conf route_type ops w).
Proof.
  revert w. induction ops as [|[env op] ops IH]; intros w Hw; simpl; [done|].
  apply IH. eapply seeded_extends; [exact Hw|].
  apply monotone_perform.
Qed.

(** ** The history store *)

(** C1. In every session, after [start_chat] and any sequence of later
    operations (hooks, handlers, appends, settings updates, turns with
    trimming enabled), the stored history is a non-empty list whose first
    entry is the seed system message. *)
Theorem history_seed_invariant conf defaults route_type ops w0 :
  exists rest,
    message_history (session (session_world conf defaults route_type ops w0))
    = Some (system_message :: rest).
Proof.
  apply run_seeded. eexists. apply start_chat_history.
Qed.

(** C10. The stored history is append-only: for every operation of an
    initialized session, in every world and whatever the remote services
    answer, the history before is a prefix of the history after.  This
    covers the turns with trimming enabled: [trim_messages] yields the list
    for the request and the stored list is not replaced by it. *)
Theorem history_append_only conf route_type env op w :
  history w `prefix_of` history (after conf route_type env op w).
Proof. apply monotone_perform. Qed.

(** C3, as stated, fails: an append with a non-empty role outside
    system/user/assistant is not a no-op. *)
Lemma append_unrecognized_role_not_noop :
  ~ (forall context role w,
       context = "" \/ role = "" \/ ~ recognized role ->
       world_of (__update_messages_history_with_context context role w) = w).
Proof.
  intros H.
  specialize (H "x" "tool" Sample.world).
  assert (Hh : history (world_of (__update_messages_history_with_context
                                    "x" "tool" Sample.world))
               = history Sample.world).
  { rewrite H; [done|]. right; right.
    unfold recognized, recognized_roles.
    rewrite !elem_of_cons, elem_of_nil.
    intros [?|[?|[?|[]]]]; discriminate. }
  vm_compute in Hh. discriminate.
Qed.

(** C3, amended.  The append is a no-op whenever the content is empty or
    the role is empty; for a non-empty content and a non-empty role, in a
    session whose stored history is a non-empty list, it appends exactly
    one message with that role and content and changes nothing else. *)
Theorem append_spec context role w :
  (context = "" \/ role = "" ->
   __update_messages_history_with_context context role w = Returned tt w) /\
  (context <> "" -> role <> "" ->
   forall m ms, message_history (session w) = Some (m :: ms) ->
   __update_messages_history_with_context context role w
   = Returned tt
       (mkWorld
          (set_message_history
             (Some ((m :: ms) ++ [mkMessage role context])) (session w))
          (effects w) (invoked w))).
Proof.
  rewrite update_messages_history_returns. unfold appended. split.
  - intros [->| ->]; simpl; [by rewrite orb_true_r | done].
  - intros Hc Hr m ms Hh.
    rewrite (length_nonzero role Hr), (length_nonzero context Hc), Hh. done.
Qed.

Lemma append_spec_witness :
  __update_messages_history_with_context "" "user" Sample.world
  = Returned tt Sample.world /\
  history (world_of (__update_messages_history_with_context
                       "hello" "user" Sample.world))
  = history Sample.world ++ [mkMessage "user" "hello"].
Proof.
  destruct (append_spec "" "user" Sample.world) as [Hnoop _].
  destruct (append_spec "hello" "user" Sample.world) as [_ Happ].
  split.
  - apply Hnoop. by left.
  - erewrite Happ; [reflexivity | done | done | reflexivity].
Defined.

(** ** Vision and text-to-speech guards *)

(** C6. When the resolved vision model does not support image input,
    [__handle_vision] returns after asking for the capability and sending
    the mismatch notice: the session (so the stored history) is unchanged
    and the vision completion service is not called. *)
Theorem vision_capability_mismatch conf env input_image prompt is_local w :
  supports_vision env (resolved_vision_model conf is_local w) = false ->
  __handle_vision conf env input_image prompt is_local w
  = Returned tt
      (mkWorld (session w)
         (effects w ++
            [CallSupportsVision (resolved_vision_model conf is_local w);
             Send None
               (unsupported_vision_notice
                  (resolved_vision_model conf is_local w)) [] []])
         (invoked w ++ [VisionHandler input_image prompt is_local])).
Proof.
  intros H. unfold __handle_vision, resolved_vision_model in *.
  destruct is_local; simpl in *.
  - exec. rewrite H. exec. by rewrite <- app_assoc.
  - exec. destruct (chat_settings (session w)); simpl in *; exec;
      rewrite H; exec; by rewrite <- app_assoc.
Qed.

Lemma vision_capability_mismatch_witness :
  history
    (world_of
       (__handle_vision Sample.conf
          (mkServices (fun _ => Ok None) (fun _ => []) (fun l _ => l)
             (fun _ _ => Ok (mkStream [] None)) (fun _ _ => Ok ("", ""))
             (fun _ => false) (fun _ _ _ => Ok "a cat") (fun _ _ => Ok "")
             (fun _ _ _ => Ok tt) (fun _ => Ok ""))
          "https://example.org/cat.png" "what is this?" false Sample.world))
  = history Sample.world.
Proof.
  rewrite vision_capability_mismatch; reflexivity.
Defined.

(** C7. When the "enable TTS response" setting is disabled or the text is
    empty, [__handle_tts_response] returns at once: no speech-synthesis
    call, no audio file, no message, and the session (so the stored
    history) is unchanged; only the entry of the handler is recorded. *)
Theorem tts_disabled_or_empty_is_noop conf env context w :
  tts_disabled w \/ context = "" ->
  __handle_tts_response conf env context w
  = Returned tt
      (mkWorld (session w) (effects w)
         (invoked w ++ [TextToSpeechHandler context])).
Proof.
  unfold tts_disabled, __handle_tts_response. exec.
  intros [H| ->].
  - destruct (chat_settings (session w)) as [st|]; simpl in *; [|done].
    injection H as ->. done.
  - destruct (chat_settings (session w)) as [st|]; simpl;
      [destruct (SETTINGS_ENABLE_TTS_RESPONSE st)|]; done.
Qed.

Lemma tts_disabled_or_empty_is_noop_witness :
  effects (world_of (__handle_tts_response Sample.conf Sample.offline
                       "speak this" Sample.world))
  = effects Sample.world /\
  session (world_of (__handle_tts_response Sample.conf Sample.offline
                       "" Sample.world))
  = session Sample.world.
Proof.
  split.
  - rewrite tts_disabled_or_empty_is_noop; [reflexivity|]. left. reflexivity.
  - rewrite tts_disabled_or_empty_is_noop; [reflexivity|]. by right.
Defined.

(** ** Remote failures *)

(** The completion call raises: the chat handler catches it, reports it,
    and leaves the session as it was. *)
Lemma chat_call_failure_caught env llm_model messages current_message w e :
  acompletion_stream env llm_model (denoted messages w) = Err e ->
  __handle_trigger_async_chat env llm_model messages current_message w
  = Returned tt
      (mkWorld (session w)
         (effects w ++
            [CallCompletion llm_model (denoted messages w);
             Send None (failure_message e) [] []])
         (invoked w ++ [ChatCompletionHandler llm_model])).
Proof.
  intros H. unfold __handle_trigger_async_chat, deref.
  destruct messages; simpl in *; unfold history in *; exec; rewrite H;
    unfold __handle_exception_error; exec; by rewrite <- app_assoc.
Qed.

(** The stream breaks after some tokens: the handler catches the
    exception and reports it; no assistant entry is stored. *)
Lemma chat_stream_failure_caught env llm_model messages current_message w ps e :
  acompletion_stream env llm_model (denoted messages w)
  = Ok (mkStream ps (Some e)) ->
  __handle_trigger_async_chat env llm_model messages current_message w
  = Returned tt
      (mkWorld (session w)
         (effects w ++
            [CallCompletion llm_model (denoted messages w)] ++
            map StreamToken (tokens_of ps) ++
            [Send None (failure_message e) [] []])
         (invoked w ++ [ChatCompletionHandler llm_model])).
Proof.
  intros H. unfold __handle_trigger_async_chat, deref.
  destruct messages; simpl in *; unfold history in *; exec; rewrite H; exec;
    (edestruct stream_tokens_returns as [cm ->]); exec;
    unfold __handle_exception_error; exec; by rewrite <- !app_assoc.
Qed.

(** X4.  The image-generation call raises: caught and reported, session
    unchanged. *)
Lemma image_gen_failure_caught conf env query w e :
  aimage_generation env query (DEFAULT_IMAGE_GEN_MODEL conf) = Err e ->
  __handle_trigger_async_image_gen conf env query w
  = Returned tt
      (mkWorld (session w)
         (effects w ++
            [Send (Some (DEFAULT_IMAGE_GEN_MODEL conf))
               (image_gen_announcement (DEFAULT_IMAGE_GEN_MODEL conf)) [] [];
             CallImageGeneration query (DEFAULT_IMAGE_GEN_MODEL conf);
             Send None (failure_message e) [] []])
         (invoked w ++ [ImageGenerationHandler query])).
Proof.
  intros H. unfold __handle_trigger_async_image_gen. exec.
  rewrite H. unfold __handle_exception_error. exec.
  by rewrite <- !app_assoc.
Qed.

(** X6.  The vision completion raises: nothing in [__handle_vision] catches
    it.  The exception leaves the handler and no failure message is sent. *)
Lemma vision_failure_escapes conf env input_image prompt is_local w e :
  supports_vision env (resolved_vision_model conf is_local w) = true ->
  acompletion_vision env (resolved_vision_model conf is_local w)
    prompt input_image = Err e ->
  __handle_vision conf env input_image prompt is_local w
  = Raised e
      (mkWorld (session w)
         (effects w ++
            [CallSupportsVision (resolved_vision_model conf is_local w);
             Send (resolved_vision_model conf is_local w)
               (vision_announcement (resolved_vision_model conf is_local w))
               [] [];
             CallVisionCompletion (resolved_vision_model conf is_local w)
               prompt input_image])
         (invoked w ++ [VisionHandler input_image prompt is_local])).
Proof.
  intros Hs He. unfold __handle_vision, resolved_vision_model in *.
  destruct is_local; simpl in *.
  - exec. rewrite Hs. exec. rewrite He. exec. by rewrite <- !app_assoc.
  - exec. destruct (chat_settings (session w)); simpl in *; exec;
      rewrite Hs; exec; rewrite He; exec; by rewrite <- !app_assoc.
Qed.

(** X8.  The transcription call raises: nothing in
    [__handle_audio_transcribe] catches it. *)
Lemma transcription_failure_escapes conf env path w e :
  transcriptions_create env (DEFAULT_WHISPER_MODEL conf) path = Err e ->
  __handle_audio_transcribe conf env path w
  = Raised e
      (mkWorld (session w)
         (effects w ++ [CallTranscription (DEFAULT_WHISPER_MODEL conf) path])
         (invoked w ++ [TranscriptionHandler path])).
Proof.
  intros H. unfold __handle_audio_transcribe. exec. by rewrite H.
Qed.

(** C2, at a failing input.  With the remote services unreachable, the
    vision handler and the transcription handler end with the exception
    raised to their caller: it is not caught at the handler boundary, and
    the effects of the call contain no failure message.  (The stored
    history is as before the call.) *)
Theorem vision_and_transcription_failures_not_caught :
  __handle_vision Sample.conf Sample.offline "/files/cat.png" "what is this?"
    true Sample.world
  = Raised Sample.unreachable
      (mkWorld (session Sample.world)
         (effects Sample.world ++
            [CallSupportsVision (Some "gpt-4-vision-preview");
             Send (Some "gpt-4-vision-preview")
               (vision_announcement (Some "gpt-4-vision-preview")) [] [];
             CallVisionCompletion (Some "gpt-4-vision-preview")
               "what is this?" "/files/cat.png"])
         [VisionHandler "/files/cat.png" "what is this?" true]) /\
  __handle_audio_transcribe Sample.conf Sample.offline "/files/memo.mp3"
    Sample.world
  = Raised Sample.unreachable
      (mkWorld (session Sample.world)
         (effects Sample.world ++ [CallTranscription "whisper-1" "/files/memo.mp3"])
         [TranscriptionHandler "/files/memo.mp3"]).
Proof. split; reflexivity. Qed.

(** ** Which handler a turn enters *)

Lemma never_raises_bind {A B} (m : M A) (k : A -> M B) :
  never_raises m -> (forall a, never_raises (k a)) -> never_raises (bind m k).
Proof.
  intros Hm Hk w. unfold bind. destruct (Hm w) as (a & w' & ->). apply Hk.
Qed.

Lemma never_raises_try_except {A} (body : M A) (handler : exn -> M A) :
  (forall e, never_raises (handler e)) -> never_raises (try_except body handler).
Proof.
  intros Hh w. unfold try_except. destruct (body w) as [a w'|e w']; [eauto|].
  apply Hh.
Qed.

Lemma never_raises_emit e : never_raises (emit e).
Proof. intros w. by eexists _, _. Qed.

Lemma never_raises_enter h : never_raises (enter h).
Proof. intros w. by eexists _, _. Qed.

Lemma enter_then_quiet {A} h (m : M A) w :
  quiet m -> invoked (world_of ((let* _ := enter h in m) w)) = invoked w ++ [h].
Proof. intros Hq. unfold bind, enter. apply Hq. Qed.

Section Entries.

Variable conf : Config.
Variable route_type : SemanticRouterType.
Variable env : Services.

(** The chat handler catches what its body raises. *)
Lemma chat_never_raises llm_model messages current_message :
  never_raises (__handle_trigger_async_chat env llm_model messages current_message).
Proof.
  apply never_raises_bind; [apply never_raises_enter | intros _].
  apply never_raises_try_except. intros e. apply never_raises_emit.
Qed.

Lemma chat_invoked llm_model messages current_message w :
  invoked (world_of (__handle_trigger_async_chat env llm_model messages
                       current_message w))
  = invoked w ++ [ChatCompletionHandler llm_model].
Proof. apply enter_then_quiet. resp. Qed.

(** So does the image-generation handler. *)
Lemma image_gen_never_raises query :
  never_raises (__handle_trigger_async_image_gen conf env query).
Proof.
  apply never_raises_bind; [apply never_raises_enter | intros _].
  apply never_raises_bind; [apply never_raises_emit | intros _].
  apply never_raises_try_except. intros e. apply never_raises_emit.
Qed.

Lemma image_gen_invoked query w :
  invoked (world_of (__handle_trigger_async_image_gen conf env query w))
  = invoked w ++ [ImageGenerationHandler query].
Proof. apply enter_then_quiet. resp. Qed.

Lemma vision_invoked input_image prompt is_local w :
  invoked (world_of (__handle_vision conf env input_image prompt is_local w))
  = invoked w ++ [VisionHandler input_image prompt is_local].
Proof. apply enter_then_quiet. resp. Qed.

(** The effects of the vision handler: the capability question about the
    resolved model comes first, and the classifier is not called. *)
Lemma vision_effects input_image prompt is_local w :
  exists rest,
    effects (world_of (__handle_vision conf env input_image prompt is_local w))
    = effects w ++
        CallSupportsVision (resolved_vision_model conf is_local w) :: rest /\
    Forall not_router_call rest.
Proof.
  unfold __handle_vision, resolved_vision_model, new_element.
  destruct is_local; exec;
    [|destruct (chat_settings (session w)); exec].
  all: destruct (supports_vision env _); exec.
  all: try (destruct (acompletion_vision env _ _ _); exec).
  all: repeat match goal with
       | |- context [Nat.eqb ?a ?b] => destruct (Nat.eqb a b); exec
       end.
  all: rewrite ?update_assistant_returns; simpl.
  all: rewrite ?effects_appended; simpl; rewrite <- ?app_assoc; simpl.
  all: eexists; (split; [reflexivity|]); repeat constructor.
Qed.

(** The classifier's answer is one of the fallback cases: the router
    hands the turn to the chat handler. *)
Lemma routing_fallback messages model msg query name w :
  IMAGE_GENERATION route_type <> VISION_IMAGE_PROCESSING route_type ->
  route_layer env query = Ok name ->
  falls_back route_type name (extract_url env query) ->
  exists w',
    __handle_dynamic_conversation_routing_chat conf route_type env
      messages model msg query w = Returned tt w' /\
    invoked w' = invoked w ++ [ChatCompletionHandler model].
Proof.
  intros Hne Hroute Hfall.
  unfold __handle_dynamic_conversation_routing_chat. exec. rewrite Hroute.
  exec. unfold route_is.
  assert (Hig : bool_decide (name = Some (IMAGE_GENERATION route_type)) = false).
  { apply bool_decide_eq_false. destruct Hfall as [[H _]|[-> _]]; [done|].
    intros [= E]. by apply Hne. }
  rewrite Hig.
  set (w1 := mkWorld _ _ _).
  assert (Hchat : forall ms,
    exists w', __handle_trigger_async_chat env model ms msg w1 = Returned tt w' /\
               invoked w' = invoked w ++ [ChatCompletionHandler model]).
  { intros ms. destruct (chat_never_raises model ms msg w1) as ([] & w' & E).
    exists w'. split; [done|].
    pose proof (chat_invoked model ms msg w1) as Hi. by rewrite E in Hi. }
  destruct (chat_settings (session w)) as [st|]; simpl;
    [destruct (SETTINGS_TRIMMED_MESSAGES st)|]; exec;
    rewrite ?deref_returns; exec.
  all: destruct Hfall as [[_ Hv]|[-> ->]];
    [ rewrite (bool_decide_eq_false_2 _ Hv); apply Hchat
    | rewrite bool_decide_eq_true_2 by done; apply Hchat ].
Qed.

(** The classifier answers IMAGE_GENERATION: the router runs the
    image-generation handler, whatever the trimming setting. *)
Lemma routing_image_generation messages model msg query w :
  route_layer env query = Ok (Some (IMAGE_GENERATION route_type)) ->
  __handle_dynamic_conversation_routing_chat conf route_type env
    messages model msg query w
  = __handle_trigger_async_image_gen conf env query
      (mkWorld (session w) (effects w ++ [CallRouteLayer query]) (invoked w)).
Proof.
  intros Hroute.
  unfold __handle_dynamic_conversation_routing_chat. exec. rewrite Hroute.
  exec. unfold route_is. rewrite bool_decide_eq_true_2 by done.
  destruct (chat_settings (session w)) as [st|]; simpl;
    [destruct (SETTINGS_TRIMMED_MESSAGES st)|]; exec;
    rewrite ?deref_returns; exec; done.
Qed.

(** With trimming enabled, a turn that falls back to chat hands the chat
    handler a list of its own, [trim_messages] of what [messages] denotes;
    the session is the one the router was called in. *)
Lemma routing_trimmed_request messages model msg query name w st :
  IMAGE_GENERATION route_type <> VISION_IMAGE_PROCESSING route_type ->
  chat_settings (session w) = Some st ->
  SETTINGS_TRIMMED_MESSAGES st = true ->
  route_layer env query = Ok name ->
  falls_back route_type name (extract_url env query) ->
  __handle_dynamic_conversation_routing_chat conf route_type env
    messages model msg query w
  = __handle_trigger_async_chat env model
      (Fresh (trim_messages env (denoted messages w) model)) msg
      (mkWorld (session w) (effects w ++ [CallRouteLayer query]) (invoked w)).
Proof.
  intros Hne Hs Ht Hroute Hfall.
  unfold __handle_dynamic_conversation_routing_chat. exec. rewrite Hroute.
  exec. rewrite Hs. exec. rewrite Ht. exec. rewrite deref_returns. exec.
  unfold route_is.
  assert (Hig : bool_decide (name = Some (IMAGE_GENERATION route_type)) = false).
  { apply bool_decide_eq_false. destruct Hfall as [[H _]|[-> _]]; [done|].
    intros [= E]. by apply Hne. }
  rewrite Hig.
  assert (Hd : forall ms,
    denoted ms (mkWorld (session w) (effects w ++ [CallRouteLayer query])
                  (invoked w)) = denoted ms w) by (by intros []).
  rewrite Hd.
  destruct Hfall as [[_ Hv]|[-> ->]];
    [ by rewrite (bool_decide_eq_false_2 _ Hv)
    | by rewrite bool_decide_eq_true_2 by done ].
Qed.

(** A text turn with dynamic routing enabled: what [__handle_conversation]
    does before it calls the router. *)
Lemma conversation_routed message messages w st :
  chat_settings (session w) = Some st ->
  SETTINGS_USE_DYNAMIC_CONVERSATION_ROUTING st = true ->
  __handle_conversation conf route_type env message messages w
  = __handle_dynamic_conversation_routing_chat conf route_type env messages
      (Some (SETTINGS_CHAT_MODEL st))
      (mkOutMessage "" (Some (SETTINGS_CHAT_MODEL st)) [])
      (in_content message)
      (appended (in_content message) "user"
         (mkWorld (session w)
            (effects w ++ [Send (Some (SETTINGS_CHAT_MODEL st)) "" [] []])
            (invoked w))).
Proof.
  intros Hs Hd. unfold __handle_conversation. exec. rewrite Hs. exec.
  rewrite update_user_returns.
  rewrite chat_settings_appended. simpl. rewrite Hs. exec. by rewrite Hd.
Qed.

End Entries.

(** ** Routing *)

(** C4. A text turn with dynamic routing enabled, for which the classifier
    returns the default route, no route or any name that is neither
    IMAGE_GENERATION nor VISION_IMAGE_PROCESSING, or returns
    VISION_IMAGE_PROCESSING for a query without URL: the turn returns (no
    exception) and the only handler entered is the chat completion handler,
    with the session's chat model; neither the image-generation nor the
    vision handler is entered. *)
Theorem fallback_routes_to_chat conf route_type env message messages w st name :
  IMAGE_GENERATION route_type <> VISION_IMAGE_PROCESSING route_type ->
  chat_settings (session w) = Some st ->
  SETTINGS_USE_DYNAMIC_CONVERSATION_ROUTING st = true ->
  route_layer env (in_content message) = Ok name ->
  falls_back route_type name (extract_url env (in_content message)) ->
  exists w',
    __handle_conversation conf route_type env message messages w
    = Returned tt w' /\
    invoked w' = invoked w ++ [ChatCompletionHandler (Some (SETTINGS_CHAT_MODEL st))].
Proof.
  intros Hne Hs Hd Hroute Hfall.
  rewrite (conversation_routed _ _ _ _ _ _ st Hs Hd).
  edestruct routing_fallback as (w' & -> & Hi); [exact Hne|exact Hroute|exact Hfall|].
  exists w'. split; [done|]. by rewrite Hi, invoked_appended.
Qed.

Lemma fallback_routes_to_chat_witness :
  invoked
    (world_of
       (__handle_conversation Sample.conf Sample.route_type
          (Sample.online (Some "vision-image-processing") "" true)
          (mkInMessage "what is in the picture?" []) Stored Sample.world))
  = [ChatCompletionHandler (Some "gpt-4o")] /\
  invoked
    (world_of
       (__handle_conversation Sample.conf Sample.route_type
          (Sample.online (Some "casual-conversation") "" true)
          (mkInMessage "hello there" []) Stored Sample.world))
  = [ChatCompletionHandler (Some "gpt-4o")].
Proof.
  split.
  - edestruct (fallback_routes_to_chat Sample.conf Sample.route_type
                 (Sample.online (Some "vision-image-processing") "" true)
                 (mkInMessage "what is in the picture?" []) Stored
                 Sample.world Sample.settings
                 (Some "vision-image-processing"))
      as (w' & E & Hi);
      [discriminate | reflexivity | reflexivity | reflexivity
      | right; split; reflexivity |].
    rewrite E. exact Hi.
  - edestruct (fallback_routes_to_chat Sample.conf Sample.route_type
                 (Sample.online (Some "casual-conversation") "" true)
                 (mkInMessage "hello there" []) Stored
                 Sample.world Sample.settings
                 (Some "casual-conversation"))
      as (w' & E & Hi);
      [discriminate | reflexivity | reflexivity | reflexivity
      | left; split; discriminate |].
    rewrite E. exact Hi.
Defined.

(** C5, as stated, fails: when the image service succeeds with an empty
    revised prompt, the turn stores no assistant entry. *)
Lemma image_generation_empty_revised_prompt :
  ~ (forall conf route_type env message messages w st url revised_prompt m ms,
       chat_settings (session w) = Some st ->
       SETTINGS_USE_DYNAMIC_CONVERSATION_ROUTING st = true ->
       message_history (session w) = Some (m :: ms) ->
       route_layer env (in_content message)
       = Ok (Some (IMAGE_GENERATION route_type)) ->
       aimage_generation env (in_content message) (DEFAULT_IMAGE_GEN_MODEL conf)
       = Ok (url, revised_prompt) ->
       history (world_of (__handle_conversation conf route_type env
                            message messages w))
       = history (appended (in_content message) "user" w)
           ++ [mkMessage "assistant" revised_prompt]).
Proof.
  intros H.
  specialize (H Sample.conf Sample.route_type
                (Sample.online (Some "image-generation") "" true)
                (mkInMessage "draw me a cat" []) Stored Sample.world
                Sample.settings "https://img.example/1.png" ""
                system_message [mkMessage "assistant" greeting]
                eq_refl eq_refl eq_refl eq_refl eq_refl).
  vm_compute in H. discriminate.
Qed.

(** What [__handle_trigger_async_image_gen] stores when the service
    succeeds with a URL and a revised prompt. *)
Lemma image_gen_success conf env query w url revised_prompt :
  aimage_generation env query (DEFAULT_IMAGE_GEN_MODEL conf)
  = Ok (url, revised_prompt) ->
  url <> "" -> revised_prompt <> "" ->
  history (world_of (__handle_trigger_async_image_gen conf env query w))
  = history (appended revised_prompt "assistant" w).
Proof.
  intros H Hu Hr. unfold __handle_trigger_async_image_gen. exec. rewrite H.
  exec. rewrite (new_element_built (ImageUrl url query)) by done. exec.
  rewrite (new_element_built (Text "Description" revised_prompt)) by done.
  exec. rewrite update_assistant_returns. simpl.
  unfold history. simpl. by rewrite session_appended.
Qed.

(** The service answers without a URL or without a revised prompt: the
    elements cannot be built, the exception is caught inside the handler
    and reported, and nothing is stored. *)
Lemma image_gen_refused conf env query w url revised_prompt :
  aimage_generation env query (DEFAULT_IMAGE_GEN_MODEL conf)
  = Ok (url, revised_prompt) ->
  url = "" \/ revised_prompt = "" ->
  __handle_trigger_async_image_gen conf env query w
  = Returned tt
      (mkWorld (session w)
         (effects w ++
            [Send (Some (DEFAULT_IMAGE_GEN_MODEL conf))
               (image_gen_announcement (DEFAULT_IMAGE_GEN_MODEL conf)) [] [];
             CallImageGeneration query (DEFAULT_IMAGE_GEN_MODEL conf);
             Send None (failure_message missing_payload) [] []])
         (invoked w ++ [ImageGenerationHandler query])).
Proof.
  intros H He. unfold __handle_trigger_async_image_gen. exec. rewrite H.
  exec.
  destruct (decide (url = "")) as [->|Hu].
  - unfold __handle_exception_error. exec. by rewrite <- !app_assoc.
  - destruct He as [->| ->]; [done|].
    rewrite (new_element_built (ImageUrl url query)) by done. exec.
    unfold __handle_exception_error. exec. by rewrite <- !app_assoc.
Qed.

(** C5, amended.  In a text turn with dynamic routing enabled that the
    classifier routes to IMAGE_GENERATION, the turn returns and the only
    handler entered is the image-generation handler (the chat completion
    handler is not entered).  When the image service succeeds with a
    non-empty URL and a non-empty revised prompt, in an initialized
    session, the history after the turn is the history with the user's
    query, followed by exactly one assistant entry whose content is the
    revised prompt.  When the revised prompt (or the URL) it returns is
    empty, no assistant entry is stored: the history after the turn is the
    history with the user's query. *)
Theorem image_generation_route conf route_type env message messages w st :
  chat_settings (session w) = Some st ->
  SETTINGS_USE_DYNAMIC_CONVERSATION_ROUTING st = true ->
  route_layer env (in_content message)
  = Ok (Some (IMAGE_GENERATION route_type)) ->
  (exists w',
     __handle_conversation conf route_type env message messages w
     = Returned tt w' /\
     invoked w' = invoked w ++ [ImageGenerationHandler (in_content message)]) /\
  (forall url revised_prompt m ms,
     aimage_generation env (in_content message) (DEFAULT_IMAGE_GEN_MODEL conf)
     = Ok (url, revised_prompt) ->
     url <> "" ->
     revised_prompt <> "" ->
     message_history (session w) = Some (m :: ms) ->
     history (world_of (__handle_conversation conf route_type env
                          message messages w))
     = history (appended (in_content message) "user" w)
         ++ [mkMessage "assistant" revised_prompt]) /\
  (forall url revised_prompt,
     aimage_generation env (in_content message) (DEFAULT_IMAGE_GEN_MODEL conf)
     = Ok (url, revised_prompt) ->
     url = "" \/ revised_prompt = "" ->
     history (world_of (__handle_conversation conf route_type env
                          message messages w))
     = history (appended (in_content message) "user" w)).
Proof.
  intros Hs Hd Hroute.
  rewrite (conversation_routed _ _ _ _ _ _ st Hs Hd).
  rewrite routing_image_generation by exact Hroute.
  set (w1 := mkWorld _ _ _).
  assert (Hh1 : history w1 = history (appended (in_content message) "user" w)).
  { subst w1. unfold history. simpl. by rewrite session_appended. }
  split; [|split].
  - destruct (image_gen_never_raises conf env (in_content message) w1)
      as ([] & w' & E).
    exists w'. split; [done|].
    pose proof (image_gen_invoked conf env (in_content message) w1) as Hi.
    rewrite E in Hi. simpl in Hi. by rewrite Hi, invoked_appended.
  - intros url rp m ms Hok Hu Hrp Hh.
    rewrite (image_gen_success _ _ _ _ _ _ Hok Hu Hrp).
    assert (Hw1 : exists m' ms', message_history (session w1) = Some (m' :: ms')).
    { subst w1. simpl. unfold appended. simpl.
      destruct (Nat.eqb _ _); simpl; rewrite Hh; simpl; eauto. }
    destruct Hw1 as (m' & ms' & Hw1).
    rewrite (history_appended_stored _ _ _ _ _ Hw1) by done.
    by rewrite Hh1.
  - intros url rp Hok He.
    rewrite (image_gen_refused _ _ _ _ _ _ Hok He). exact Hh1.
Qed.

Lemma image_generation_route_witness :
  history
    (world_of
       (__handle_conversation Sample.conf Sample.route_type
          (Sample.online (Some "image-generation") "A tabby cat, pencil sketch" true)
          (mkInMessage "draw me a cat" []) Stored Sample.world))
  = history Sample.world ++
      [mkMessage "user" "draw me a cat";
       mkMessage "assistant" "A tabby cat, pencil sketch"] /\
  history
    (world_of
       (__handle_conversation Sample.conf Sample.route_type
          (Sample.online (Some "image-generation") "" true)
          (mkInMessage "draw me a cat" []) Stored Sample.world))
  = history Sample.world ++ [mkMessage "user" "draw me a cat"].
Proof.
  split.
  - destruct (image_generation_route Sample.conf Sample.route_type
                (Sample.online (Some "image-generation")
                   "A tabby cat, pencil sketch" true)
                (mkInMessage "draw me a cat" []) Stored Sample.world
                Sample.settings eq_refl eq_refl eq_refl) as (_ & H & _).
    rewrite (H "https://img.example/1.png" "A tabby cat, pencil sketch"
               system_message [mkMessage "assistant" greeting]
               eq_refl ltac:(discriminate) ltac:(discriminate) eq_refl).
    reflexivity.
  - destruct (image_generation_route Sample.conf Sample.route_type
                (Sample.online (Some "image-generation") "" true)
                (mkInMessage "draw me a cat" []) Stored Sample.world
                Sample.settings eq_refl eq_refl eq_refl) as (_ & _ & H).
    rewrite (H "https://img.example/1.png" "" eq_refl (or_intror eq_refl)).
    reflexivity.
Defined.

(** ** File attachments *)

(** A message with file elements: [on_message] stores the prompt and runs
    the loop over the elements. *)
Lemma on_message_files conf route_type env message w file files :
  in_elements message = file :: files ->
  on_message conf route_type env message w
  = for_each
      (handle_file conf route_type env message (session_messages (session w))
         (in_content message))
      (in_elements message)
      (appended (in_content message) "user" w).
Proof.
  intros H. unfold on_message, __handle_files_attachment. exec.
  rewrite H. simpl. unfold bind at 1. by rewrite update_user_returns.
Qed.

(** The loop body sends an image-typed file to the vision handler as a
    local file. *)
Lemma handle_file_image conf route_type env message messages prompt file :
  image_typed file ->
  handle_file conf route_type env message messages prompt file
  = __handle_vision conf env (file_path file) prompt true.
Proof. intros H. unfold handle_file. unfold image_typed in H. by rewrite H. Qed.

(** C8, as stated, fails: an image attachment that follows an attachment
    whose handling raises is never handed to the vision handler.  Here a
    text attachment comes first and the classifier is down. *)
Lemma image_attachment_after_failure_not_handled :
  ~ (forall conf route_type env message w file,
       file ∈ in_elements message ->
       image_typed file ->
       VisionHandler (file_path file) (in_content message) true
         ∈ invoked (world_of (on_message conf route_type env message w))).
Proof.
  intros H.
  specialize (H Sample.conf Sample.route_type Sample.classifier_down
                (mkInMessage "see the attachments"
                   [mkFileElement "/files/notes.txt" (Some "text/plain");
                    mkFileElement "/files/cat.png" (Some "image/png")])
                Sample.world
                (mkFileElement "/files/cat.png" (Some "image/png"))).
  assert (E : invoked
                (world_of
                   (on_message Sample.conf Sample.route_type
                      Sample.classifier_down
                      (mkInMessage "see the attachments"
                         [mkFileElement "/files/notes.txt" (Some "text/plain");
                          mkFileElement "/files/cat.png" (Some "image/png")])
                      Sample.world)) = []) by reflexivity.
  rewrite E in H. eapply elem_of_nil, H.
  - simpl. rewrite !elem_of_cons. auto.
  - reflexivity.
Qed.

(** C8, amended.  Let an inbound message carry an image-typed attachment
    [file], and let the loop over the attachments reach it: the attachments
    before it were handled without an exception leaving their handler,
    ending in world [w1] (always so for the first attachment).  Then what
    the loop does for that attachment is the vision handler on the file as
    a local file and nothing else: from [w1] to the world [w2] in which the
    loop goes on to the next attachment, the vision handler is the one
    handler entered, the first effect is the capability question about the
    hardcoded default vision model (not the model of the settings), and no
    effect is a call to the classifier.  [on_message] is that step followed
    by the loop over the remaining attachments.  Nothing depends on the
    dynamic-routing setting. *)
Theorem image_attachment_goes_to_vision
    conf route_type env message w pre file post w1 :
  in_elements message = pre ++ file :: post ->
  image_typed file ->
  for_each
    (handle_file conf route_type env message (session_messages (session w))
       (in_content message))
    pre (appended (in_content message) "user" w) = Returned tt w1 ->
  let body := handle_file conf route_type env message
                (session_messages (session w)) (in_content message) in
  let w2 := world_of (body file w1) in
  body file w1
  = __handle_vision conf env (file_path file) (in_content message) true w1 /\
  invoked w2
  = invoked w1 ++ [VisionHandler (file_path file) (in_content message) true] /\
  (exists rest,
     effects w2
     = effects w1 ++ CallSupportsVision (Some (DEFAULT_VISION_MODEL conf)) :: rest /\
     Forall not_router_call rest) /\
  on_message conf route_type env message w
  = (let* _ := body file in for_each body post) w1 /\
  extends w2 (world_of (on_message conf route_type env message w)).
Proof.
  intros Hel Himg Hpre body w2. subst w2 body.
  assert (Hne : exists x xs, in_elements message = x :: xs).
  { rewrite Hel. destruct pre; simpl; eauto. }
  destruct Hne as (x & xs & Hne).
  assert (Hrun :
    on_message conf route_type env message w
    = (let* _ := handle_file conf route_type env message
                   (session_messages (session w)) (in_content message) file in
       for_each (handle_file conf route_type env message
                   (session_messages (session w)) (in_content message)) post)
        w1).
  { rewrite (on_message_files _ _ _ _ _ _ _ Hne), Hel, for_each_app.
    unfold bind at 1. by rewrite Hpre. }
  rewrite (handle_file_image _ _ _ _ _ _ _ Himg) in *.
  split; [done|]. split; [apply vision_invoked|].
  split; [apply (vision_effects conf env _ _ true w1)|].
  split.
  - exact Hrun.
  - rewrite Hrun.
    apply respects_after_first; [exact _|].
    intros _. apply respects_for_each; [exact _|].
    intros f. apply monotone_handle_file.
Qed.

Lemma image_attachment_goes_to_vision_witness :
  let env := Sample.online None "" true in
  let memo := mkFileElement "/files/memo.mp3" (Some "audio/mpeg") in
  let cat := mkFileElement "/files/cat.png" (Some "image/png") in
  let message := mkInMessage "what is this?" [memo; cat] in
  let body :=
    handle_file Sample.conf Sample.route_type env message
      (session_messages (session Sample.world)) "what is this?" in
  let w1 :=
    world_of
      (for_each body [memo] (appended "what is this?" "user" Sample.world)) in
  let w2 := world_of (body cat w1) in
  invoked w2 = invoked w1 ++ [VisionHandler "/files/cat.png" "what is this?" true] /\
  extends w2
    (world_of (on_message Sample.conf Sample.route_type env message
                 Sample.world)).
Proof.
  intros env memo cat message body w1 w2.
  destruct (image_attachment_goes_to_vision Sample.conf Sample.route_type
              env message Sample.world [memo] cat [] w1)
    as (_ & Hi & _ & _ & Hp); [reflexivity | reflexivity | reflexivity |].
  split; [exact Hi | exact Hp].
Defined.

(** ** The chat completion handler *)

Lemma string_app_assoc (a b c : string) : (a +:+ b) +:+ c = a +:+ (b +:+ c).
Proof.
  induction a as [|x a IH]; [done|].
  change ((String x a +:+ b) +:+ c) with (String x ((a +:+ b) +:+ c)).
  change (String x a +:+ (b +:+ c)) with (String x (a +:+ (b +:+ c))).
  by rewrite IH.
Qed.

Lemma string_app_empty_r (a : string) : a +:+ "" = a.
Proof.
  induction a as [|x a IH]; [done|].
  change (String x a +:+ "") with (String x (a +:+ "")). by rewrite IH.
Qed.

(** The loop over the parts of a stream: the non-empty contents are sent
    to the UI in order and appended to the content of the message. *)
Lemma stream_tokens_spec ps current_message w :
  stream_tokens ps current_message w
  = Returned
      (mkOutMessage (out_content current_message +:+ joined (tokens_of ps))
         (out_author current_message) (out_actions current_message))
      (mkWorld (session w) (effects w ++ map StreamToken (tokens_of ps))
         (invoked w)).
Proof.
  revert current_message w. induction ps as [|p ps IH]; intros cm w; simpl.
  - unfold ret, tokens_of, joined. simpl.
    rewrite app_nil_r, string_app_empty_r. by destruct cm, w.
  - unfold tokens_of. simpl. rewrite filter_cons.
    destruct (Nat.eqb (String.length (default "" p)) 0) eqn:E.
    + destruct (decide (true = false)) as [?|_]; [done|]. apply IH.
    + destruct (decide (false = false)) as [_|?]; [|done].
      exec. rewrite IH. simpl. unfold joined. simpl.
      by rewrite <- app_assoc, string_app_assoc.
Qed.

(** The world the chat handler ends in when the stream completes. *)
Lemma chat_completed_world env llm_model messages current_message w ps :
  acompletion_stream env llm_model (denoted messages w)
  = Ok (mkStream ps None) ->
  __handle_trigger_async_chat env llm_model messages current_message w
  = Returned tt
      (mkWorld
         (session
            (appended (out_content current_message +:+ joined (tokens_of ps))
               "assistant" w))
         (effects w ++
            [CallCompletion llm_model (denoted messages w)] ++
            map StreamToken (tokens_of ps) ++
            [Update (out_content current_message +:+ joined (tokens_of ps))
               (if truthy (setting SETTINGS_ENABLE_TTS_RESPONSE w)
                then [speak_action
                        (out_content current_message +:+ joined (tokens_of ps))]
                else out_actions current_message)])
         (invoked w ++ [ChatCompletionHandler llm_model])).
Proof.
  intros H. unfold __handle_trigger_async_chat, deref, setting.
  destruct messages; simpl in *; unfold history in *; exec; rewrite H; exec;
    rewrite stream_tokens_spec; exec;
    rewrite update_assistant_returns; simpl;
    rewrite chat_settings_appended; simpl;
    (destruct (chat_settings (session w)); exec);
    rewrite effects_appended, invoked_appended, session_appended; simpl;
    by rewrite <- !app_assoc.
Qed.

(** X1.  When the completion stream ends normally, the chat handler sends
    the non-empty tokens to the UI in order, then updates the message with
    their concatenation, carrying a "speak" action exactly when the TTS
    setting is on.  A non-empty answer is stored once, as an assistant
    entry, in an initialized session; an answer made of empty parts only is
    not stored. *)
Theorem chat_stream_completed env llm_model messages current_message w ps :
  acompletion_stream env llm_model (denoted messages w)
  = Ok (mkStream ps None) ->
  let answer := out_content current_message +:+ joined (tokens_of ps) in
  let w' := world_of (__handle_trigger_async_chat env llm_model messages
                        current_message w) in
  effects w'
  = effects w ++
      [CallCompletion llm_model (denoted messages w)] ++
      map StreamToken (tokens_of ps) ++
      [Update answer
         (if truthy (setting SETTINGS_ENABLE_TTS_RESPONSE w)
          then [speak_action answer] else out_actions current_message)] /\
  (answer = "" -> history w' = history w) /\
  (answer <> "" ->
   forall m ms, message_history (session w) = Some (m :: ms) ->
   history w' = history w ++ [mkMessage "assistant" answer]).
Proof.
  intros H answer w'. subst w'.
  rewrite (chat_completed_world _ _ _ _ _ _ H). simpl.
  fold answer. split; [done|]. unfold history at 1 3. simpl. split.
  - intros ->. done.
  - intros Ha m ms Hh.
    by apply (history_appended_stored answer "assistant" w m ms).
Qed.

Lemma chat_stream_completed_witness :
  history
    (world_of
       (__handle_trigger_async_chat (Sample.online None "" true)
          (Some "gpt-4o") Stored (mkOutMessage "" (Some "gpt-4o") [])
          Sample.world))
  = history Sample.world ++ [mkMessage "assistant" "Hi!"].
Proof.
  destruct (chat_stream_completed (Sample.online None "" true)
              (Some "gpt-4o") Stored (mkOutMessage "" (Some "gpt-4o") [])
              Sample.world [Some "Hi"; None; Some "!"] eq_refl)
    as (_ & _ & H).
  exact (H ltac:(discriminate) system_message
           [mkMessage "assistant" greeting] eq_refl).
Defined.

(** X2.  A failure of the completion service, at the call or in the middle
    of the stream, does not leave the chat handler: the handler returns,
    its last effect is the failure message with the type and the text of
    the exception, and the session is unchanged.  Tokens that arrived
    before the failure were shown, but no assistant entry is stored. *)
Theorem chat_failure_reported env llm_model messages current_message w e :
  (acompletion_stream env llm_model (denoted messages w) = Err e ->
   __handle_trigger_async_chat env llm_model messages current_message w
   = Returned tt
       (mkWorld (session w)
          (effects w ++
             [CallCompletion llm_model (denoted messages w);
              Send None (failure_message e) [] []])
          (invoked w ++ [ChatCompletionHandler llm_model]))) /\
  (forall ps,
     acompletion_stream env llm_model (denoted messages w)
     = Ok (mkStream ps (Some e)) ->
     __handle_trigger_async_chat env llm_model messages current_message w
     = Returned tt
         (mkWorld (session w)
            (effects w ++
               [CallCompletion llm_model (denoted messages w)] ++
               map StreamToken (tokens_of ps) ++
               [Send None (failure_message e) [] []])
            (invoked w ++ [ChatCompletionHandler llm_model]))).
Proof.
  split.
  - apply chat_call_failure_caught.
  - intros ps. apply chat_stream_failure_caught.
Qed.

Lemma chat_failure_reported_witness :
  effects
    (world_of
       (__handle_trigger_async_chat Scenario.breaking_stream
          (Some "gpt-4o") Stored (mkOutMessage "" (Some "gpt-4o") [])
          Sample.world))
  = effects Sample.world ++
      [CallCompletion (Some "gpt-4o") (history Sample.world);
       StreamToken "Par"; StreamToken "tial";
       Send None (failure_message Sample.unreachable) [] []] /\
  session
    (world_of
       (__handle_trigger_async_chat Sample.offline
          (Some "gpt-4o") Stored (mkOutMessage "" (Some "gpt-4o") [])
          Sample.world))
  = session Sample.world.
Proof.
  split.
  - destruct (chat_failure_reported Scenario.breaking_stream (Some "gpt-4o")
                Stored (mkOutMessage "" (Some "gpt-4o") []) Sample.world
                Sample.unreachable) as [_ H].
    rewrite (H [Some "Par"; Some "tial"] eq_refl). reflexivity.
  - destruct (chat_failure_reported Sample.offline (Some "gpt-4o")
                Stored (mkOutMessage "" (Some "gpt-4o") []) Sample.world
                Sample.unreachable) as [H _].
    rewrite (H eq_refl). reflexivity.
Defined.

Lemma not_router_call_tokens ts : Forall not_router_call (map StreamToken ts).
Proof. induction ts; simpl; constructor; done. Qed.

(** Whatever the completion service does, the chat handler first calls it
    with the list that [messages] denotes, and never calls the
    classifier. *)
Lemma chat_effects env llm_model messages current_message w :
  exists rest,
    effects (world_of (__handle_trigger_async_chat env llm_model messages
                         current_message w))
    = effects w ++ CallCompletion llm_model (denoted messages w) :: rest /\
    Forall not_router_call rest.
Proof.
  destruct (acompletion_stream env llm_model (denoted messages w))
    as [[ps [e|]]|e] eqn:E.
  - rewrite (chat_stream_failure_caught _ _ _ _ _ _ _ E). simpl.
    eexists. split; [reflexivity|].
    apply Forall_app. split; [apply not_router_call_tokens|].
    by repeat constructor.
  - rewrite (chat_completed_world _ _ _ _ _ _ E). simpl.
    eexists. split; [reflexivity|].
    apply Forall_app. split; [apply not_router_call_tokens|].
    by repeat constructor.
  - rewrite (chat_call_failure_caught _ _ _ _ _ _ E). simpl.
    eexists. split; [reflexivity|]. by repeat constructor.
Qed.

(** ** The image-generation handler *)

(** X3.  The image service returns a URL and a revised prompt.  When
    both are non-empty, the handler announces the model, calls the service
    with the query and the default image model, stores the revised prompt
    (see the append), and sends one message with the image, the description
    and a "speak" action that carries the description.  When one of them is
    empty, the element cannot be built: the exception is caught in the
    handler, the failure message is sent instead of the image, and nothing
    is stored. *)
Theorem image_generation_completed conf env query w url revised_prompt :
  aimage_generation env query (DEFAULT_IMAGE_GEN_MODEL conf)
  = Ok (url, revised_prompt) ->
  (url <> "" -> revised_prompt <> "" ->
   __handle_trigger_async_image_gen conf env query w
   = Returned tt
       (mkWorld (session (appended revised_prompt "assistant" w))
          (effects w ++
             [Send (Some (DEFAULT_IMAGE_GEN_MODEL conf))
                (image_gen_announcement (DEFAULT_IMAGE_GEN_MODEL conf)) [] [];
              CallImageGeneration query (DEFAULT_IMAGE_GEN_MODEL conf);
              Send (Some (DEFAULT_IMAGE_GEN_MODEL conf))
                "Here's the image, along with a refined description based on your input:"
                [ImageUrl url query; Text "Description" revised_prompt]
                [speak_action revised_prompt]])
          (invoked w ++ [ImageGenerationHandler query]))) /\
  (url = "" \/ revised_prompt = "" ->
   __handle_trigger_async_image_gen conf env query w
   = Returned tt
       (mkWorld (session w)
          (effects w ++
             [Send (Some (DEFAULT_IMAGE_GEN_MODEL conf))
                (image_gen_announcement (DEFAULT_IMAGE_GEN_MODEL conf)) [] [];
              CallImageGeneration query (DEFAULT_IMAGE_GEN_MODEL conf);
              Send None (failure_message missing_payload) [] []])
          (invoked w ++ [ImageGenerationHandler query]))).
Proof.
  intros H. split.
  - intros Hu Hr. unfold __handle_trigger_async_image_gen. exec. rewrite H.
    exec. rewrite (new_element_built (ImageUrl url query)) by done. exec.
    rewrite (new_element_built (Text "Description" revised_prompt)) by done.
    exec. rewrite update_assistant_returns. simpl.
    rewrite effects_appended, invoked_appended, session_appended. simpl.
    by rewrite <- !app_assoc.
  - by apply image_gen_refused.
Qed.

Lemma image_generation_completed_witness :
  effects
    (world_of
       (__handle_trigger_async_image_gen Sample.conf
          (Sample.online None "A tabby cat" true) "draw a cat" Sample.world))
  = effects Sample.world ++
      [Send (Some "dall-e-3") (image_gen_announcement "dall-e-3") [] [];
       CallImageGeneration "draw a cat" "dall-e-3";
       Send (Some "dall-e-3")
         "Here's the image, along with a refined description based on your input:"
         [ImageUrl "https://img.example/1.png" "draw a cat";
          Text "Description" "A tabby cat"]
         [speak_action "A tabby cat"]] /\
  effects
    (world_of
       (__handle_trigger_async_image_gen Sample.conf
          (Sample.online None "" true) "draw a cat" Sample.world))
  = effects Sample.world ++
      [Send (Some "dall-e-3") (image_gen_announcement "dall-e-3") [] [];
       CallImageGeneration "draw a cat" "dall-e-3";
       Send None (failure_message missing_payload) [] []].
Proof.
  split.
  - destruct (image_generation_completed Sample.conf
                (Sample.online None "A tabby cat" true) "draw a cat"
                Sample.world "https://img.example/1.png" "A tabby cat" eq_refl)
      as [H _].
    rewrite H; [reflexivity | discriminate | discriminate].
  - destruct (image_generation_completed Sample.conf
                (Sample.online None "" true) "draw a cat"
                Sample.world "https://img.example/1.png" "" eq_refl)
      as [_ H].
    rewrite H; [reflexivity | by right].
Defined.

Lemma image_gen_failure_caught_witness :
  __handle_trigger_async_image_gen Sample.conf Sample.offline "draw a cat"
    Sample.world
  = Returned tt
      (mkWorld (session Sample.world)
         (effects Sample.world ++
            [Send (Some "dall-e-3") (image_gen_announcement "dall-e-3") [] [];
             CallImageGeneration "draw a cat" "dall-e-3";
             Send None (failure_message Sample.unreachable) [] []])
         [ImageGenerationHandler "draw a cat"]).
Proof.
  exact (image_gen_failure_caught Sample.conf Sample.offline "draw a cat"
           Sample.world Sample.unreachable eq_refl).
Defined.

(** ** Vision, transcription and speech *)

(** X5.  The resolved model supports vision and the completion returns a
    description.  When the image reference and the description are
    non-empty, the vision handler announces the model, calls the
    completion with the prompt and the image, stores the description (see
    the append), and sends one message with the image (by path for a local
    file, by URL otherwise), the description and a "speak" action that
    carries the description.  When one of them is empty, the element
    cannot be built: the exception leaves the handler after the completion
    call, nothing more is sent and nothing is stored. *)
Theorem vision_completed conf env input_image prompt is_local w description :
  supports_vision env (resolved_vision_model conf is_local w) = true ->
  acompletion_vision env (resolved_vision_model conf is_local w)
    prompt input_image = Ok description ->
  (input_image <> "" -> description <> "" ->
   __handle_vision conf env input_image prompt is_local w
   = Returned tt
       (mkWorld (session (appended description "assistant" w))
          (effects w ++
             [CallSupportsVision (resolved_vision_model conf is_local w);
              Send (resolved_vision_model conf is_local w)
                (vision_announcement (resolved_vision_model conf is_local w))
                [] [];
              CallVisionCompletion (resolved_vision_model conf is_local w)
                prompt input_image;
              Send (resolved_vision_model conf is_local w) ""
                [if is_local then ImagePath input_image prompt
                 else ImageUrl input_image prompt;
                 Text "Explain" description]
                [speak_action description]])
          (invoked w ++ [VisionHandler input_image prompt is_local]))) /\
  (input_image = "" \/ description = "" ->
   __handle_vision conf env input_image prompt is_local w
   = Raised missing_payload
       (mkWorld (session w)
          (effects w ++
             [CallSupportsVision (resolved_vision_model conf is_local w);
              Send (resolved_vision_model conf is_local w)
                (vision_announcement (resolved_vision_model conf is_local w))
                [] [];
              CallVisionCompletion (resolved_vision_model conf is_local w)
                prompt input_image])
          (invoked w ++ [VisionHandler input_image prompt is_local]))).
Proof.
  intros Hs Hd. split.
  - intros Hi Hdesc. unfold __handle_vision, resolved_vision_model in *.
    destruct is_local; simpl in *; exec;
      [|destruct (chat_settings (session w)); simpl in *; exec].
    all: rewrite Hs; exec; rewrite Hd; exec.
    all: rewrite new_element_built by done; exec.
    all: rewrite new_element_built by done; exec.
    all: rewrite update_assistant_returns; simpl.
    all: rewrite effects_appended, invoked_appended, session_appended; simpl.
    all: by rewrite <- !app_assoc.
  - intros He. unfold __handle_vision, resolved_vision_model in *.
    destruct is_local; simpl in *; exec;
      [|destruct (chat_settings (session w)); simpl in *; exec].
    all: rewrite Hs; exec; rewrite Hd; exec.
    all: destruct (decide (input_image = "")) as [Hi|Hi];
      [ rewrite new_element_refused by done; exec; by rewrite <- !app_assoc
      | destruct He as [He|He]; [done|];
        rewrite new_element_built by done; exec;
        rewrite new_element_refused by done; exec;
        by rewrite <- !app_assoc ].
Qed.

Lemma vision_completed_witness :
  history
    (world_of
       (__handle_vision Sample.conf (Sample.online None "" true)
          "https://img.example/cat.png" "what is this?" false Sample.world))
  = history Sample.world ++ [mkMessage "assistant" "A cat."] /\
  history
    (world_of
       (__handle_vision Sample.conf (Sample.online None "" true)
          "" "what is this?" false Sample.world))
  = history Sample.world.
Proof.
  split.
  - destruct (vision_completed Sample.conf (Sample.online None "" true)
                "https://img.example/cat.png" "what is this?" false
                Sample.world "A cat." eq_refl eq_refl) as [H _].
    rewrite H; [reflexivity | discriminate | discriminate].
  - destruct (vision_completed Sample.conf (Sample.online None "" true)
                "" "what is this?" false
                Sample.world "A cat." eq_refl eq_refl) as [_ H].
    rewrite H; [reflexivity | by left].
Defined.

Lemma vision_failure_escapes_witness :
  __handle_vision Sample.conf Sample.offline "https://img.example/cat.png"
    "what is this?" false Sample.world
  = Raised Sample.unreachable
      (mkWorld (session Sample.world)
         (effects Sample.world ++
            [CallSupportsVision (Some "gemini-pro-vision");
             Send (Some "gemini-pro-vision")
               (vision_announcement (Some "gemini-pro-vision")) [] [];
             CallVisionCompletion (Some "gemini-pro-vision")
               "what is this?" "https://img.example/cat.png"])
         [VisionHandler "https://img.example/cat.png" "what is this?" false]).
Proof.
  exact (vision_failure_escapes Sample.conf Sample.offline
           "https://img.example/cat.png" "what is this?" false Sample.world
           Sample.unreachable eq_refl eq_refl).
Defined.

(** X7.  The transcription service returns a text.  When the path and the
    text are non-empty, the handler returns that text, after sending one
    message (authored by the default whisper model) with the audio and the
    transcript, and storing the transcript (see the append).  When one of
    them is empty, the element cannot be built: the exception leaves the
    handler right after the call, nothing is sent and nothing is
    stored. *)
Theorem transcription_completed conf env path w text :
  transcriptions_create env (DEFAULT_WHISPER_MODEL conf) path = Ok text ->
  (path <> "" -> text <> "" ->
   __handle_audio_transcribe conf env path w
   = Returned text
       (mkWorld (session (appended text "assistant" w))
          (effects w ++
             [CallTranscription (DEFAULT_WHISPER_MODEL conf) path;
              Send (Some (DEFAULT_WHISPER_MODEL conf)) ""
                [Audio "Audio" path; Text "Transcript" text] []])
          (invoked w ++ [TranscriptionHandler path]))) /\
  (path = "" \/ text = "" ->
   __handle_audio_transcribe conf env path w
   = Raised missing_payload
       (mkWorld (session w)
          (effects w ++ [CallTranscription (DEFAULT_WHISPER_MODEL conf) path])
          (invoked w ++ [TranscriptionHandler path]))).
Proof.
  intros H. split.
  - intros Hp Ht. unfold __handle_audio_transcribe. exec. rewrite H. exec.
    rewrite new_element_built by done. exec.
    rewrite new_element_built by done. exec.
    rewrite update_assistant_returns. simpl.
    rewrite appended_eta, session_appended. simpl.
    by rewrite <- !app_assoc.
  - intros He. unfold __handle_audio_transcribe. exec. rewrite H. exec.
    destruct (decide (path = "")) as [Hp|Hp].
    + by rewrite new_element_refused by done.
    + destruct He as [He|He]; [done|].
      rewrite new_element_built by done. exec.
      by rewrite new_element_refused by done.
Qed.

Lemma transcription_completed_witness :
  history
    (world_of
       (__handle_audio_transcribe Sample.conf (Sample.online None "" true)
          "/files/memo.mp3" Sample.world))
  = history Sample.world ++ [mkMessage "assistant" "memo"] /\
  effects
    (world_of
       (__handle_audio_transcribe Sample.conf (Sample.online None "" true)
          "" Sample.world))
  = effects Sample.world ++ [CallTranscription "whisper-1" ""].
Proof.
  split.
  - destruct (transcription_completed Sample.conf (Sample.online None "" true)
                "/files/memo.mp3" Sample.world "memo" eq_refl) as [H _].
    rewrite H; [reflexivity | discriminate | discriminate].
  - destruct (transcription_completed Sample.conf (Sample.online None "" true)
                "" Sample.world "memo" eq_refl) as [_ H].
    rewrite H; [reflexivity | by left].
Defined.

Lemma transcription_failure_escapes_witness :
  __handle_audio_transcribe Sample.conf Sample.offline "/files/memo.mp3"
    Sample.world
  = Raised Sample.unreachable
      (mkWorld (session Sample.world)
         (effects Sample.world ++
            [CallTranscription "whisper-1" "/files/memo.mp3"])
         [TranscriptionHandler "/files/memo.mp3"]).
Proof.
  exact (transcription_failure_escapes Sample.conf Sample.offline
           "/files/memo.mp3" Sample.world Sample.unreachable eq_refl).
Defined.

(** X9.  The "speak" action on a non-empty text, in a session whose
    settings have TTS on, when the speech service answers: the action is
    removed, the service is called with the TTS model and voice of the
    settings, the audio goes to the one file [tts-output.mp3] of the
    temporary directory, one message with the text and the audio is sent,
    and the text is stored as an assistant entry (see the append), whether
    or not the history already holds it. *)
Theorem speak_completed conf env action w st :
  chat_settings (session w) = Some st ->
  SETTINGS_ENABLE_TTS_RESPONSE st = true ->
  action_value action <> "" ->
  speech_create env (Some (SETTINGS_TTS_MODEL st))
    (Some (SETTINGS_TTS_VOICE_PRESET_MODEL st)) (action_value action) = Ok tt ->
  on_speak_chat_response conf env action w
  = Returned tt
      (mkWorld (session (appended (action_value action) "assistant" w))
         (effects w ++
            [RemoveAction action;
             CallSpeech (Some (SETTINGS_TTS_MODEL st))
               (Some (SETTINGS_TTS_VOICE_PRESET_MODEL st)) (action_value action);
             StreamToFile (temp_dir_name conf +:+ "/tts-output.mp3");
             Send (Some (SETTINGS_TTS_MODEL st))
               (tts_announcement (Some (SETTINGS_TTS_MODEL st))
                  (Some (SETTINGS_TTS_VOICE_PRESET_MODEL st)))
               [Text "Context" (action_value action);
                Audio "" (temp_dir_name conf +:+ "/tts-output.mp3")] []])
         (invoked w ++ [TextToSpeechHandler (action_value action)])).
Proof.
  intros Es He Hc Hs.
  unfold on_speak_chat_response, __handle_tts_response. exec.
  rewrite Es. exec. rewrite He. simpl.
  rewrite (length_nonzero _ Hc). exec. repeat (rewrite Es; exec).
  rewrite Hs. exec.
  rewrite update_assistant_returns. simpl.
  rewrite appended_eta, session_appended. simpl.
  by rewrite <- !app_assoc.
Qed.

Lemma speak_completed_witness :
  history
    (world_of
       (on_speak_chat_response Sample.conf (Sample.online None "" true)
          (speak_action greeting) Scenario.speaking_world))
  = [system_message; mkMessage "assistant" greeting;
     mkMessage "assistant" greeting].
Proof.
  rewrite (speak_completed Sample.conf (Sample.online None "" true)
             (speak_action greeting) Scenario.speaking_world
             Scenario.speaking eq_refl eq_refl ltac:(discriminate) eq_refl).
  reflexivity.
Defined.

(** X10.  When the speech service raises, nothing in the "speak" path
    catches it: the exception leaves [on_speak_chat_response], no failure
    message is sent, no file is written and the session is unchanged. *)
Theorem speak_failure_escapes conf env action w e :
  is_False (setting SETTINGS_ENABLE_TTS_RESPONSE w) = false ->
  action_value action <> "" ->
  speech_create env (setting SETTINGS_TTS_MODEL w)
    (setting SETTINGS_TTS_VOICE_PRESET_MODEL w) (action_value action) = Err e ->
  on_speak_chat_response conf env action w
  = Raised e
      (mkWorld (session w)
         (effects w ++
            [RemoveAction action;
             CallSpeech (setting SETTINGS_TTS_MODEL w)
               (setting SETTINGS_TTS_VOICE_PRESET_MODEL w) (action_value action)])
         (invoked w ++ [TextToSpeechHandler (action_value action)])).
Proof.
  intros He Hc Hs.
  unfold on_speak_chat_response, __handle_tts_response, setting in *. exec.
  destruct (chat_settings (session w)) as [st|] eqn:Es; simpl in *; exec.
  - destruct (SETTINGS_ENABLE_TTS_RESPONSE st); [|done]. simpl.
    rewrite (length_nonzero _ Hc). exec. repeat (rewrite Es; exec). rewrite Hs. exec.
    by rewrite <- !app_assoc.
  - rewrite (length_nonzero _ Hc). exec. repeat (rewrite Es; exec). rewrite Hs. exec.
    by rewrite <- !app_assoc.
Qed.

Lemma speak_failure_escapes_witness :
  on_speak_chat_response Sample.conf Sample.offline (speak_action "Hi!")
    Scenario.speaking_world
  = Raised Sample.unreachable
      (mkWorld (session Scenario.speaking_world)
         (effects Scenario.speaking_world ++
            [RemoveAction (speak_action "Hi!");
             CallSpeech (Some "tts-1") (Some "nova") "Hi!"])
         [TextToSpeechHandler "Hi!"]).
Proof.
  exact (speak_failure_escapes Sample.conf Sample.offline (speak_action "Hi!")
           Scenario.speaking_world Sample.unreachable
           eq_refl ltac:(discriminate) eq_refl).
Defined.

(** ** Text turns *)

Lemma denoted_frame messages context role w es hs :
  denoted messages (appended context role (mkWorld (session w) es hs))
  = denoted messages (appended context role w).
Proof.
  destruct messages; [|done]. unfold denoted, history.
  by rewrite session_appended.
Qed.

Lemma denoted_effects messages w es hs :
  denoted messages (mkWorld (session w) es hs) = denoted messages w.
Proof. by destruct messages. Qed.

Section Turns.

Variable conf : Config.
Variable route_type : SemanticRouterType.
Variable env : Services.

(** With dynamic routing off, or without settings, [__handle_conversation]
    stores the query and calls the chat handler with [messages] as it
    is. *)
Lemma conversation_unrouted message messages w :
  truthy (setting SETTINGS_USE_DYNAMIC_CONVERSATION_ROUTING w) = false ->
  __handle_conversation conf route_type env message messages w
  = __handle_trigger_async_chat env (setting SETTINGS_CHAT_MODEL w) messages
      (mkOutMessage "" (setting SETTINGS_CHAT_MODEL w) [])
      (appended (in_content message) "user"
         (mkWorld (session w)
            (effects w ++ [Send (setting SETTINGS_CHAT_MODEL w) "" [] []])
            (invoked w))).
Proof.
  intros Hd. unfold __handle_conversation, setting in *. exec.
  destruct (chat_settings (session w)) as [st|] eqn:Es; simpl in *; exec;
    rewrite update_user_returns; rewrite chat_settings_appended; simpl;
    rewrite Es; exec; [by rewrite Hd | done].
Qed.

(** A fallback turn: the chat handler gets the trimmed list when the
    trimming setting is on, [messages] as it is otherwise. *)
Lemma routing_fallback_request messages model msg query name w :
  IMAGE_GENERATION route_type <> VISION_IMAGE_PROCESSING route_type ->
  route_layer env query = Ok name ->
  falls_back route_type name (extract_url env query) ->
  __handle_dynamic_conversation_routing_chat conf route_type env
    messages model msg query w
  = __handle_trigger_async_chat env model
      (if truthy (setting SETTINGS_TRIMMED_MESSAGES w)
       then Fresh (trim_messages env (denoted messages w) model)
       else messages) msg
      (mkWorld (session w) (effects w ++ [CallRouteLayer query]) (invoked w)).
Proof.
  intros Hne Hroute Hfall.
  unfold __handle_dynamic_conversation_routing_chat, setting. exec.
  rewrite Hroute. exec. unfold route_is.
  assert (Hig : bool_decide (name = Some (IMAGE_GENERATION route_type)) = false).
  { apply bool_decide_eq_false. destruct Hfall as [[H _]|[-> _]]; [done|].
    intros [= E]. by apply Hne. }
  rewrite Hig.
  destruct (chat_settings (session w)) as [st|]; simpl;
    [destruct (SETTINGS_TRIMMED_MESSAGES st)|]; exec;
    rewrite ?deref_returns; exec; rewrite ?denoted_effects.
  all: destruct Hfall as [[_ Hv]|[-> ->]];
    [ by rewrite (bool_decide_eq_false_2 _ Hv)
    | by rewrite bool_decide_eq_true_2 by done ].
Qed.

(** X12.  A text turn in a session whose settings have dynamic routing
    off goes straight to the chat handler: the turn returns, the chat
    handler is the only handler entered, the classifier is not called,
    and the completion request carries the list that [messages] denotes,
    untrimmed, whatever the trimming setting says. *)
Theorem routing_disabled_goes_to_chat message messages w st :
  chat_settings (session w) = Some st ->
  SETTINGS_USE_DYNAMIC_CONVERSATION_ROUTING st = false ->
  exists w' rest,
    __handle_conversation conf route_type env message messages w
    = Returned tt w' /\
    invoked w'
    = invoked w ++ [ChatCompletionHandler (Some (SETTINGS_CHAT_MODEL st))] /\
    effects w'
    = effects w ++
        Send (Some (SETTINGS_CHAT_MODEL st)) "" [] [] ::
        CallCompletion (Some (SETTINGS_CHAT_MODEL st))
          (denoted messages (appended (in_content message) "user" w)) ::
        rest /\
    Forall not_router_call rest.
Proof.
  intros Es Hd.
  assert (Hoff : truthy (setting SETTINGS_USE_DYNAMIC_CONVERSATION_ROUTING w)
                 = false) by (unfold setting; by rewrite Es).
  rewrite (conversation_unrouted _ _ _ Hoff).
  assert (Hm : setting SETTINGS_CHAT_MODEL w = Some (SETTINGS_CHAT_MODEL st))
    by (unfold setting; by rewrite Es).
  rewrite Hm.
  set (model := Some (SETTINGS_CHAT_MODEL st)).
  set (w1 := appended _ _ _).
  destruct (chat_never_raises env model messages (mkOutMessage "" model []) w1)
    as ([] & w' & E).
  pose proof (chat_invoked env model messages (mkOutMessage "" model []) w1) as Hi.
  destruct (chat_effects env model messages (mkOutMessage "" model []) w1)
    as (rest & He & Hr).
  rewrite E in Hi, He. simpl in Hi, He.
  exists w', rest. split; [done|]. subst w1.
  rewrite invoked_appended in Hi. rewrite effects_appended in He.
  rewrite denoted_frame in He. simpl in Hi, He.
  split; [done|]. split; [|done]. by rewrite He, <- app_assoc.
Qed.

(** X13.  A text turn with dynamic routing on whose classifier call
    raises: nothing catches the exception.  It leaves
    [__handle_conversation] after the empty response message was sent and
    the query stored; no handler is entered and no failure message is
    sent. *)
Theorem classifier_failure_propagates message messages w e :
  truthy (setting SETTINGS_USE_DYNAMIC_CONVERSATION_ROUTING w) = true ->
  route_layer env (in_content message) = Err e ->
  __handle_conversation conf route_type env message messages w
  = Raised e
      (mkWorld (session (appended (in_content message) "user" w))
         (effects w ++
            [Send (setting SETTINGS_CHAT_MODEL w) "" [] [];
             CallRouteLayer (in_content message)])
         (invoked w)).
Proof.
  intros Hd He. unfold setting in *.
  destruct (chat_settings (session w)) as [st|] eqn:Es; simpl in *; [|done].
  rewrite (conversation_routed _ _ _ _ _ _ st Es Hd).
  unfold __handle_dynamic_conversation_routing_chat. exec. rewrite He. exec.
  rewrite effects_appended, invoked_appended, session_appended. simpl.
  by rewrite <- app_assoc.
Qed.

(** X14.  The classifier answers VISION_IMAGE_PROCESSING and the query
    holds at least one URL: the router runs the vision handler on the first
    URL, as a remote image, with the query as prompt.  The vision handler
    is the only handler entered, and the model it asks about is the vision
    model of the settings. *)
Theorem vision_route_with_url messages model msg query w url urls :
  IMAGE_GENERATION route_type <> VISION_IMAGE_PROCESSING route_type ->
  route_layer env query = Ok (Some (VISION_IMAGE_PROCESSING route_type)) ->
  extract_url env query = url :: urls ->
  let w' := world_of (__handle_dynamic_conversation_routing_chat conf
                        route_type env messages model msg query w) in
  __handle_dynamic_conversation_routing_chat conf route_type env
    messages model msg query w
  = __handle_vision conf env url query false
      (mkWorld (session w) (effects w ++ [CallRouteLayer query]) (invoked w)) /\
  invoked w' = invoked w ++ [VisionHandler url query false] /\
  exists rest,
    effects w'
    = effects w ++
        CallRouteLayer query ::
        CallSupportsVision (setting SETTINGS_VISION_MODEL w) :: rest /\
    Forall not_router_call rest.
Proof.
  intros Hne Hroute Hurl w'. subst w'.
  assert (E : __handle_dynamic_conversation_routing_chat conf route_type env
                messages model msg query w
              = __handle_vision conf env url query false
                  (mkWorld (session w) (effects w ++ [CallRouteLayer query])
                     (invoked w))).
  { unfold __handle_dynamic_conversation_routing_chat. exec.
    rewrite Hroute. exec. unfold route_is.
    rewrite bool_decide_eq_false_2
      by (intros [= E]; by apply Hne).
    rewrite bool_decide_eq_true_2 by done. rewrite Hurl.
    destruct (chat_settings (session w)) as [st|]; simpl;
      [destruct (SETTINGS_TRIMMED_MESSAGES st)|]; exec;
      rewrite ?deref_returns; exec; done. }
  rewrite E. split; [done|]. split.
  - by rewrite vision_invoked.
  - destruct (vision_effects conf env url query false
                (mkWorld (session w) (effects w ++ [CallRouteLayer query])
                   (invoked w))) as (rest & He & Hr).
    exists rest. split; [|done]. rewrite He. simpl.
    by rewrite <- app_assoc.
Qed.

(** X15.  A turn that falls back to chat completion calls the classifier
    once, then the completion service: with the trimming setting on, the
    request carries [trim_messages] of the list that [messages] denotes
    (and the model); with trimming off, or without settings, it carries
    that list itself. *)
Theorem fallback_request messages model msg query name w :
  IMAGE_GENERATION route_type <> VISION_IMAGE_PROCESSING route_type ->
  route_layer env query = Ok name ->
  falls_back route_type name (extract_url env query) ->
  exists rest,
    effects (world_of (__handle_dynamic_conversation_routing_chat conf
                         route_type env messages model msg query w))
    = effects w ++
        CallRouteLayer query ::
        CallCompletion model
          (if truthy (setting SETTINGS_TRIMMED_MESSAGES w)
           then trim_messages env (denoted messages w) model
           else denoted messages w) :: rest /\
    Forall not_router_call rest.
Proof.
  intros Hne Hroute Hfall.
  rewrite (routing_fallback_request _ _ _ _ _ _ Hne Hroute Hfall).
  edestruct chat_effects as (rest & -> & Hr).
  exists rest. split; [|done]. simpl. rewrite <- app_assoc. simpl.
  destruct (truthy _); simpl; [done|]. by rewrite denoted_effects.
Qed.

End Turns.

Lemma routing_disabled_goes_to_chat_witness :
  exists w' rest,
    __handle_conversation Sample.conf Sample.route_type
      (Sample.online (Some "image-generation") "" true)
      (mkInMessage "draw me a cat" []) Stored Scenario.speaking_world
    = Returned tt w' /\
    invoked w' = [ChatCompletionHandler (Some "gpt-4o")] /\
    effects w'
    = effects Scenario.speaking_world ++
        Send (Some "gpt-4o") "" [] [] ::
        CallCompletion (Some "gpt-4o")
          [system_message; mkMessage "assistant" greeting;
           mkMessage "user" "draw me a cat"] :: rest /\
    Forall not_router_call rest.
Proof.
  exact (routing_disabled_goes_to_chat Sample.conf Sample.route_type
           (Sample.online (Some "image-generation") "" true)
           (mkInMessage "draw me a cat" []) Stored Scenario.speaking_world
           Scenario.speaking eq_refl eq_refl).
Defined.

Lemma classifier_failure_propagates_witness :
  __handle_conversation Sample.conf Sample.route_type Sample.classifier_down
    (mkInMessage "hello" []) Stored Sample.world
  = Raised Sample.unreachable
      (mkWorld (session (appended "hello" "user" Sample.world))
         (effects Sample.world ++
            [Send (Some "gpt-4o") "" [] []; CallRouteLayer "hello"])
         []).
Proof.
  exact (classifier_failure_propagates Sample.conf Sample.route_type
           Sample.classifier_down (mkInMessage "hello" []) Stored
           Sample.world Sample.unreachable eq_refl eq_refl).
Defined.

Lemma vision_route_with_url_witness :
  invoked
    (world_of
       (__handle_dynamic_conversation_routing_chat Sample.conf
          Sample.route_type Scenario.vision_route Stored (Some "gpt-4o")
          (mkOutMessage "" (Some "gpt-4o") [])
          "what is in https://img.example/cat.png ?" Sample.world))
  = [VisionHandler "https://img.example/cat.png"
       "what is in https://img.example/cat.png ?" false].
Proof.
  destruct (vision_route_with_url Sample.conf Sample.route_type
              Scenario.vision_route Stored (Some "gpt-4o")
              (mkOutMessage "" (Some "gpt-4o") [])
              "what is in https://img.example/cat.png ?" Sample.world
              "https://img.example/cat.png" ["https://img.example/dog.png"]
              ltac:(discriminate) eq_refl eq_refl) as (_ & H & _).
  exact H.
Defined.

Lemma fallback_request_witness :
  exists rest,
    effects
      (world_of
         (__handle_dynamic_conversation_routing_chat Sample.conf
            Sample.route_type Scenario.trimming Stored (Some "gpt-4o")
            (mkOutMessage "" (Some "gpt-4o") []) "hello"
            Scenario.trimmed_world))
    = effects Scenario.trimmed_world ++
        CallRouteLayer "hello" ::
        CallCompletion (Some "gpt-4o") [system_message] :: rest /\
    Forall not_router_call rest.
Proof.
  destruct (fallback_request Sample.conf Sample.route_type Scenario.trimming
              Stored (Some "gpt-4o") (mkOutMessage "" (Some "gpt-4o") [])
              "hello" None Scenario.trimmed_world) as (rest & He & Hr).
  - discriminate.
  - reflexivity.
  - left. split; discriminate.
  - exists rest. split; [exact He | exact Hr].
Defined.

(** ** Relations kept by every operation *)

Section Frame.

Context (R : World -> World -> Prop) `{!PreOrder R}.
Hypothesis R_emit : forall e, respects R (emit e).
Hypothesis R_enter : forall h, respects R (enter h).
Hypothesis R_append : forall context role,
  respects R (__update_messages_history_with_context context role).

Variable conf : Config.
Variable route_type : SemanticRouterType.
Variable env : Services.

#[local] Hint Resolve R_emit R_enter R_append : resp.

Lemma frame_chat llm_model messages current_message :
  respects R (__handle_trigger_async_chat env llm_model messages current_message).
Proof. unfold __handle_trigger_async_chat. resp. Qed.

Lemma frame_image_gen query :
  respects R (__handle_trigger_async_image_gen conf env query).
Proof. unfold __handle_trigger_async_image_gen. resp. Qed.

Lemma frame_vision input_image prompt is_local :
  respects R (__handle_vision conf env input_image prompt is_local).
Proof. unfold __handle_vision. resp. Qed.

Lemma frame_audio_transcribe path :
  respects R (__handle_audio_transcribe conf env path).
Proof. unfold __handle_audio_transcribe. resp. Qed.

Lemma frame_tts_response context :
  respects R (__handle_tts_response conf env context).
Proof. unfold __handle_tts_response. resp. Qed.

#[local] Hint Resolve frame_chat frame_image_gen frame_vision
  frame_audio_transcribe frame_tts_response : resp.

Lemma frame_on_speak_chat_response action :
  respects R (on_speak_chat_response conf env action).
Proof. unfold on_speak_chat_response. resp. Qed.

Lemma frame_routing messages model msg query :
  respects R (__handle_dynamic_conversation_routing_chat
                conf route_type env messages model msg query).
Proof. unfold __handle_dynamic_conversation_routing_chat. resp. Qed.

#[local] Hint Resolve frame_routing frame_on_speak_chat_response : resp.

Lemma frame_conversation message messages :
  respects R (__handle_conversation conf route_type env message messages).
Proof. unfold __handle_conversation. resp. Qed.

#[local] Hint Resolve frame_conversation : resp.

Lemma frame_handle_file message messages prompt file :
  respects R (handle_file conf route_type env message messages prompt file).
Proof. unfold handle_file. resp. Qed.

#[local] Hint Resolve frame_handle_file : resp.

Lemma frame_files_attachment message messages :
  respects R (__handle_files_attachment conf route_type env message messages).
Proof. unfold __handle_files_attachment. resp. Qed.

#[local] Hint Resolve frame_files_attachment : resp.

Lemma frame_on_message message :
  respects R (on_message conf route_type env message).
Proof. unfold on_message. resp. Qed.

#[local] Hint Resolve frame_on_message : resp.

(** Every operation but the settings update is made of effects, handler
    entries and appends. *)
Lemma frame_perform op :
  is_update_settings op = false -> respects R (perform conf route_type env op).
Proof. destruct op; simpl; intros H; try discriminate; resp. Qed.

End Frame.

#[global] Instance keeps_unseeded_preorder : PreOrder keeps_unseeded.
Proof.
  split.
  - by intros w.
  - intros w1 w2 w3 H K Hu. unfold keeps_unseeded, unseeded in *.
    rewrite K, H; try done.
    unfold session_messages in *. by rewrite (H Hu).
Qed.

#[global] Instance same_settings_preorder : PreOrder same_settings.
Proof.
  split.
  - by intros w.
  - intros w1 w2 w3 H K. unfold same_settings in *. congruence.
Qed.

Lemma keeps_unseeded_append context role :
  respects keeps_unseeded
    (__update_messages_history_with_context context role).
Proof.
  intros w Hu. rewrite update_messages_history_returns. simpl.
  unfold unseeded, session_messages, appended in *.
  destruct (_ || _); [done|].
  destruct (message_history (session w)) as [[|m ms]|] eqn:E;
    [by rewrite E | discriminate Hu | by rewrite E].
Qed.

Lemma same_settings_append context role :
  respects same_settings
    (__update_messages_history_with_context context role).
Proof.
  intros w. rewrite update_messages_history_returns. simpl.
  unfold same_settings, appended.
  destruct (_ || _); [done|].
  by destruct (message_history (session w)) as [[|m ms]|].
Qed.

(** X17.  In a session whose history key is unset or holds the empty list,
    nothing is ever stored: [get("message_history") or []] hands every
    append a new list that is dropped.  Every operation leaves the stored
    history as it is, whatever the services answer. *)
Theorem unseeded_session_stores_nothing conf route_type env op w :
  unseeded w ->
  message_history (session (after conf route_type env op w))
  = message_history (session w).
Proof.
  intros Hu. destruct (is_update_settings op) eqn:E.
  - by destruct op.
  - revert Hu. apply (frame_perform keeps_unseeded); try done.
    apply keeps_unseeded_append.
Qed.

Lemma unseeded_session_stores_nothing_witness :
  message_history
    (session
       (after Sample.conf Sample.route_type (Sample.online None "" true)
          (OnMessage (mkInMessage "hello" [])) empty_world))
  = None.
Proof.
  rewrite (unseeded_session_stores_nothing Sample.conf Sample.route_type
             (Sample.online None "" true) (OnMessage (mkInMessage "hello" []))
             empty_world eq_refl).
  reflexivity.
Defined.

(** X18.  The handlers write nothing in the session but the history: after
    every operation other than the settings update, [chat_settings] and
    the per-key entries are what they were, whatever the services
    answer. *)
Theorem handlers_keep_settings conf route_type env op w :
  is_update_settings op = false ->
  set_message_history None (session (after conf route_type env op w))
  = set_message_history None (session w).
Proof.
  intros E. apply (frame_perform same_settings); try done.
  apply same_settings_append.
Qed.

Lemma handlers_keep_settings_witness :
  chat_settings
    (session
       (after Sample.conf Sample.route_type (Sample.online None "" true)
          (OnMessage (mkInMessage "hello" [])) Sample.world))
  = Some Sample.settings.
Proof.
  pose proof (handlers_keep_settings Sample.conf Sample.route_type
                (Sample.online None "" true)
                (OnMessage (mkInMessage "hello" [])) Sample.world eq_refl) as H.
  apply (f_equal chat_settings) in H. exact H.
Defined.

(** ** Inbound messages *)

Lemma on_message_text conf route_type env message w :
  in_elements message = [] ->
  on_message conf route_type env message w
  = __handle_conversation conf route_type env message
      (session_messages (session w)) w.
Proof. intros H. unfold on_message. exec. by rewrite H. Qed.

Lemma bind_ret_unit (m : M unit) w : (let* _ := m in ret tt) w = m w.
Proof. unfold bind, ret. by destruct (m w) as [[] w'|e w']. Qed.

(** The query is stored before anything else can fail in
    [__handle_conversation]. *)
Lemma conversation_stores_query conf route_type env message messages w :
  history (appended (in_content message) "user" w)
  `prefix_of`
  history (world_of (__handle_conversation conf route_type env message
                       messages w)).
Proof.
  assert (Hw1 : forall es hs,
    history (appended (in_content message) "user" (mkWorld (session w) es hs))
    = history (appended (in_content message) "user" w)).
  { intros es hs. unfold history. by rewrite session_appended. }
  destruct (truthy (setting SETTINGS_USE_DYNAMIC_CONVERSATION_ROUTING w)) eqn:Hd.
  - unfold setting in Hd.
    destruct (chat_settings (session w)) as [st|] eqn:Es; simpl in Hd; [|done].
    rewrite (conversation_routed _ _ _ _ _ _ st Es Hd).
    erewrite <- Hw1.
    apply monotone_handle_dynamic_conversation_routing_chat.
  - rewrite (conversation_unrouted _ _ _ _ _ _ Hd).
    erewrite <- Hw1.
    apply monotone_handle_trigger_async_chat.
Qed.

(** X16.  A text turn in an initialized session whose settings have
    dynamic routing off: the completion request carries the stored history
    with the new query at its end.  [messages] is the stored list itself,
    so it sees the append made after [on_message] read it. *)
Theorem text_turn_request conf route_type env message w st m ms :
  in_elements message = [] ->
  chat_settings (session w) = Some st ->
  SETTINGS_USE_DYNAMIC_CONVERSATION_ROUTING st = false ->
  message_history (session w) = Some (m :: ms) ->
  in_content message <> "" ->
  exists rest,
    effects (after conf route_type env (OnMessage message) w)
    = effects w ++
        Send (Some (SETTINGS_CHAT_MODEL st)) "" [] [] ::
        CallCompletion (Some (SETTINGS_CHAT_MODEL st))
          (history w ++ [mkMessage "user" (in_content message)]) :: rest.
Proof.
  intros Hel Es Hd Hh Hq. unfold after. simpl.
  assert (Hoff : truthy (setting SETTINGS_USE_DYNAMIC_CONVERSATION_ROUTING w)
                 = false) by (unfold setting; by rewrite Es).
  assert (Hm : setting SETTINGS_CHAT_MODEL w = Some (SETTINGS_CHAT_MODEL st))
    by (unfold setting; by rewrite Es).
  rewrite (on_message_text _ _ _ _ _ Hel), (conversation_unrouted _ _ _ _ _ _ Hoff).
  rewrite Hm.
  edestruct chat_effects as (rest & -> & _).
  rewrite effects_appended, denoted_frame. simpl.
  exists rest. rewrite <- app_assoc. simpl.
  unfold session_messages. rewrite Hh. simpl.
  by rewrite (history_appended_stored _ _ _ _ _ Hh).
Qed.

Lemma text_turn_request_witness :
  exists rest,
    effects (after Sample.conf Sample.route_type (Sample.online None "" true)
               (OnMessage (mkInMessage "hello" [])) Scenario.speaking_world)
    = effects Scenario.speaking_world ++
        Send (Some "gpt-4o") "" [] [] ::
        CallCompletion (Some "gpt-4o")
          [system_message; mkMessage "assistant" greeting;
           mkMessage "user" "hello"] :: rest.
Proof.
  exact (text_turn_request Sample.conf Sample.route_type
           (Sample.online None "" true) (mkInMessage "hello" [])
           Scenario.speaking_world Scenario.speaking system_message
           [mkMessage "assistant" greeting]
           eq_refl eq_refl eq_refl eq_refl ltac:(discriminate)).
Defined.

Lemma for_each_unmatched conf route_type env message messages prompt files w :
  Forall unmatched files ->
  for_each (handle_file conf route_type env message messages prompt) files w
  = Returned tt w.
Proof.
  induction 1 as [|f fs (Hi & Ht & Ha) _ IH]; simpl; [done|].
  unfold bind, handle_file. rewrite Hi, Ht, Ha. simpl. exact IH.
Qed.

(** X20.  Attachments whose MIME type names neither an image, nor a text,
    nor an audio (or that have no MIME type) are skipped silently: a
    message that carries such attachments only stores its text as a user
    entry and does nothing else; no handler runs and nothing is sent. *)
Theorem unmatched_attachments_ignored conf route_type env message w file files :
  in_elements message = file :: files ->
  Forall unmatched (in_elements message) ->
  on_message conf route_type env message w
  = Returned tt (appended (in_content message) "user" w).
Proof.
  intros Hel Hall.
  rewrite (on_message_files _ _ _ _ _ _ _ Hel).
  by apply for_each_unmatched.
Qed.

Lemma unmatched_attachments_ignored_witness :
  on_message Sample.conf Sample.route_type Sample.offline
    (mkInMessage "see the report"
       [mkFileElement "/files/report.pdf" (Some "application/pdf");
        mkFileElement "/files/blob" None])
    Sample.world
  = Returned tt (appended "see the report" "user" Sample.world).
Proof.
  apply (unmatched_attachments_ignored Sample.conf Sample.route_type
           Sample.offline
           (mkInMessage "see the report"
              [mkFileElement "/files/report.pdf" (Some "application/pdf");
               mkFileElement "/files/blob" None])
           Sample.world
           (mkFileElement "/files/report.pdf" (Some "application/pdf"))
           [mkFileElement "/files/blob" None] eq_refl).
  repeat constructor.
Defined.

(** X21.  A message with one text attachment.  When the file is read, its
    content becomes the query of a text turn: the message's own text and
    then the file's content are both stored as user entries.  When reading
    the file raises, the exception leaves [on_message] with the message's
    text stored and nothing else done. *)
Theorem text_attachment_becomes_query conf route_type env message w file :
  in_elements message = [file] ->
  ~ image_typed file ->
  text_typed file ->
  (forall s, read_text env (file_path file) = Ok s ->
     on_message conf route_type env message w
     = __handle_conversation conf route_type env
         (mkInMessage s [file]) (session_messages (session w))
         (mkWorld (session (appended (in_content message) "user" w))
            (effects w ++ [ReadText (file_path file)]) (invoked w)) /\
     history (appended s "user" (appended (in_content message) "user" w))
     `prefix_of`
     history (world_of (on_message conf route_type env message w))) /\
  (forall e, read_text env (file_path file) = Err e ->
     on_message conf route_type env message w
     = Raised e
         (mkWorld (session (appended (in_content message) "user" w))
            (effects w ++ [ReadText (file_path file)]) (invoked w))).
Proof.
  intros Hel Hi Ht. unfold image_typed, text_typed in *.
  apply not_true_is_false in Hi.
  rewrite (on_message_files _ _ _ _ _ _ _ Hel), Hel. simpl for_each.
  rewrite bind_ret_unit. unfold handle_file. rewrite Hi, Ht.
  rewrite Hel. split.
  - intros s Hs. unfold bind at 1, call. exec. rewrite Hs. exec.
    rewrite effects_appended, invoked_appended.
    split; [done|].
    set (w1 := mkWorld _ _ _).
    assert (Hw1 : history (appended s "user" w1)
                  = history (appended s "user"
                               (appended (in_content message) "user" w))).
    { subst w1. unfold history. by rewrite session_appended. }
    rewrite <- Hw1.
    apply (conversation_stores_query conf route_type env (mkInMessage s [file])).
  - intros e He. unfold bind at 1, call. exec. rewrite He. exec.
    by rewrite effects_appended, invoked_appended.
Qed.

Lemma text_attachment_becomes_query_witness :
  history
    (world_of
       (on_message Sample.conf Sample.route_type
          (Sample.online None "" true)
          (mkInMessage "summarize this"
             [mkFileElement "/files/notes.txt" (Some "text/plain")])
          Scenario.speaking_world))
  = [system_message; mkMessage "assistant" greeting;
     mkMessage "user" "summarize this"; mkMessage "user" "notes";
     mkMessage "assistant" "Hi!"].
Proof.
  destruct (text_attachment_becomes_query Sample.conf Sample.route_type
              (Sample.online None "" true)
              (mkInMessage "summarize this"
                 [mkFileElement "/files/notes.txt" (Some "text/plain")])
              Scenario.speaking_world
              (mkFileElement "/files/notes.txt" (Some "text/plain"))
              eq_refl ltac:(discriminate) eq_refl) as [H _].
  destruct (H "notes" eq_refl) as [-> _]. reflexivity.
Defined.

(** ** The per-key entries are never read *)

Lemma erase_eq_inv w1 w2 :
  erase w1 = erase w2 ->
  message_history (session w1) = message_history (session w2) /\
  chat_settings (session w1) = chat_settings (session w2) /\
  effects w1 = effects w2 /\ invoked w1 = invoked w2.
Proof. unfold erase, erase_keys. intros [= -> -> -> ->]. done. Qed.

Lemma erase_eq_intro w1 w2 :
  message_history (session w1) = message_history (session w2) ->
  chat_settings (session w1) = chat_settings (session w2) ->
  effects w1 = effects w2 -> invoked w1 = invoked w2 ->
  erase w1 = erase w2.
Proof. unfold erase, erase_keys. by intros -> -> -> ->. Qed.

Lemma ignores_keys_ret {A} (a : A) : ignores_keys (ret a).
Proof. intros w1 w2 H. unfold ret. simpl. by rewrite H. Qed.

Lemma ignores_keys_raise {A} (e : exn) : ignores_keys (@raise A e).
Proof. intros w1 w2 H. unfold raise. simpl. by rewrite H. Qed.

Lemma ignores_keys_bind {A B} (m : M A) (k : A -> M B) :
  ignores_keys m -> (forall a, ignores_keys (k a)) -> ignores_keys (bind m k).
Proof.
  intros Hm Hk w1 w2 H. unfold bind. specialize (Hm w1 w2 H).
  destruct (m w1) as [a1 v1|e1 v1], (m w2) as [a2 v2|e2 v2];
    unfold erase_outcome in Hm; try discriminate.
  - assert (a1 = a2) as -> by congruence.
    apply Hk. congruence.
  - simpl. congruence.
Qed.

Lemma ignores_keys_try_except {A} (body : M A) (handler : exn -> M A) :
  ignores_keys body -> (forall e, ignores_keys (handler e)) ->
  ignores_keys (try_except body handler).
Proof.
  intros Hm Hk w1 w2 H. unfold try_except. specialize (Hm w1 w2 H).
  destruct (body w1) as [a1 v1|e1 v1], (body w2) as [a2 v2|e2 v2];
    unfold erase_outcome in Hm; try discriminate.
  - exact Hm.
  - assert (e1 = e2) as -> by congruence.
    apply Hk. congruence.
Qed.

Lemma ignores_keys_for_each {A} (body : A -> M unit) (xs : list A) :
  (forall x, ignores_keys (body x)) -> ignores_keys (for_each body xs).
Proof.
  intros Hb. induction xs as [|x xs IH]; simpl.
  - apply ignores_keys_ret.
  - apply ignores_keys_bind; auto.
Qed.

Lemma ignores_keys_emit e : ignores_keys (emit e).
Proof.
  intros w1 w2 H. apply erase_eq_inv in H as (Hh & Hs & He & Hi). simpl.
  f_equal. apply erase_eq_intro; simpl; congruence.
Qed.

Lemma ignores_keys_enter h : ignores_keys (enter h).
Proof.
  intros w1 w2 H. apply erase_eq_inv in H as (Hh & Hs & He & Hi). simpl.
  f_equal. apply erase_eq_intro; simpl; congruence.
Qed.

Lemma ignores_keys_call {A} e (r : result A) : ignores_keys (call e r).
Proof.
  apply ignores_keys_bind; [apply ignores_keys_emit|].
  intros _. destruct r; [apply ignores_keys_ret | apply ignores_keys_raise].
Qed.

Lemma ignores_keys_get_settings {A} (key : Settings -> A) :
  ignores_keys (__get_settings key).
Proof.
  intros w1 w2 H. pose proof (erase_eq_inv _ _ H) as (_ & Hs & _).
  unfold __get_settings, bind, get_session, ret. rewrite Hs.
  destruct (chat_settings (session w2)); simpl; by rewrite H.
Qed.

Lemma ignores_keys_append context role :
  ignores_keys (__update_messages_history_with_context context role).
Proof.
  intros w1 w2 H. rewrite !update_messages_history_returns. simpl. f_equal.
  pose proof (erase_eq_inv _ _ H) as (Hh & Hs & He & Hi).
  unfold appended. destruct (_ || _); [done|]. rewrite Hh.
  destruct (message_history (session w2)) as [[|m ms]|]; try done.
  apply erase_eq_intro; simpl; congruence.
Qed.

Lemma ignores_keys_update_assistant context :
  ignores_keys (__update_assistant_messages_history_with_context context).
Proof. apply ignores_keys_append. Qed.

Lemma ignores_keys_update_user context :
  ignores_keys (__update_user_messages_history_with_context context).
Proof. apply ignores_keys_append. Qed.

Lemma ignores_keys_deref messages : ignores_keys (deref messages).
Proof.
  destruct messages; simpl; [|apply ignores_keys_ret].
  intros w1 w2 H. pose proof (erase_eq_inv _ _ H) as (Hh & _).
  unfold bind, get_session, ret. simpl. by rewrite Hh, H.
Qed.

Lemma ignores_keys_handle_exception_error e :
  ignores_keys (__handle_exception_error e).
Proof. apply ignores_keys_emit. Qed.

Lemma ignores_keys_new_element el : ignores_keys (new_element el).
Proof.
  unfold new_element.
  destruct (Nat.eqb _ _); [apply ignores_keys_raise | apply ignores_keys_ret].
Qed.

Lemma ignores_keys_stream_tokens ps current_message :
  ignores_keys (stream_tokens ps current_message).
Proof.
  revert current_message. induction ps as [|p ps IH]; intros cm; simpl.
  - apply ignores_keys_ret.
  - destruct (Nat.eqb _ _); [apply IH|].
    apply ignores_keys_bind; [apply ignores_keys_emit | intros; apply IH].
Qed.

Create HintDb ik.

#[local] Hint Resolve ignores_keys_ret ignores_keys_raise ignores_keys_emit
  ignores_keys_enter ignores_keys_call ignores_keys_get_settings
  ignores_keys_append ignores_keys_update_assistant ignores_keys_update_user
  ignores_keys_deref ignores_keys_handle_exception_error
  ignores_keys_stream_tokens ignores_keys_new_element : ik.

Ltac ik_step :=
  match goal with
  | |- ignores_keys (bind _ _) => apply ignores_keys_bind; [|intros ?]
  | |- ignores_keys (try_except _ _) =>
      apply ignores_keys_try_except; [|intros ?]
  | |- ignores_keys (for_each _ _) => apply ignores_keys_for_each; intros ?
  | |- ignores_keys (if ?b then _ else _) => destruct b
  | |- ignores_keys (match ?x with _ => _ end) => destruct x
  | |- ignores_keys _ => solve [auto with ik]
  end.

Ltac ik := cbv zeta; repeat ik_step.

Section WriteOnly.

Variable conf : Config.
Variable route_type : SemanticRouterType.
Variable env : Services.

Lemma ignores_keys_chat llm_model messages current_message :
  ignores_keys (__handle_trigger_async_chat env llm_model messages
                  current_message).
Proof. unfold __handle_trigger_async_chat. ik. Qed.

Lemma ignores_keys_image_gen query :
  ignores_keys (__handle_trigger_async_image_gen conf env query).
Proof. unfold __handle_trigger_async_image_gen. ik. Qed.

Lemma ignores_keys_vision input_image prompt is_local :
  ignores_keys (__handle_vision conf env input_image prompt is_local).
Proof. unfold __handle_vision. ik. Qed.

Lemma ignores_keys_audio_transcribe path :
  ignores_keys (__handle_audio_transcribe conf env path).
Proof. unfold __handle_audio_transcribe. ik. Qed.

Lemma ignores_keys_tts_response context :
  ignores_keys (__handle_tts_response conf env context).
Proof. unfold __handle_tts_response. ik. Qed.

#[local] Hint Resolve ignores_keys_chat ignores_keys_image_gen
  ignores_keys_vision ignores_keys_audio_transcribe
  ignores_keys_tts_response : ik.

Lemma ignores_keys_on_speak_chat_response action :
  ignores_keys (on_speak_chat_response conf env action).
Proof. unfold on_speak_chat_response. ik. Qed.

Lemma ignores_keys_routing messages model msg query :
  ignores_keys (__handle_dynamic_conversation_routing_chat
                  conf route_type env messages model msg query).
Proof. unfold __handle_dynamic_conversation_routing_chat. ik. Qed.

#[local] Hint Resolve ignores_keys_routing
  ignores_keys_on_speak_chat_response : ik.

Lemma ignores_keys_conversation message messages :
  ignores_keys (__handle_conversation conf route_type env message messages).
Proof. unfold __handle_conversation. ik. Qed.

#[local] Hint Resolve ignores_keys_conversation : ik.

Lemma ignores_keys_handle_file message messages prompt file :
  ignores_keys (handle_file conf route_type env message messages prompt file).
Proof. unfold handle_file. ik. Qed.

#[local] Hint Resolve ignores_keys_handle_file : ik.

Lemma ignores_keys_files_attachment message messages :
  ignores_keys (__handle_files_attachment conf route_type env message messages).
Proof. unfold __handle_files_attachment. ik. Qed.

#[local] Hint Resolve ignores_keys_files_attachment : ik.

Lemma ignores_keys_on_message message :
  ignores_keys (on_message conf route_type env message).
Proof.
  intros w1 w2 H. pose proof (erase_eq_inv _ _ H) as (Hh & _).
  unfold on_message, bind at 1, get_session. simpl.
  unfold bind at 1, get_session. simpl.
  unfold session_messages. rewrite Hh.
  destruct (Nat.ltb _ _); [by apply ignores_keys_files_attachment|].
  by apply ignores_keys_conversation.
Qed.

Lemma ignores_keys_update_settings settings :
  ignores_keys (update_settings settings).
Proof.
  intros w1 w2 H. apply erase_eq_inv in H as (Hh & Hs & He & Hi).
  unfold update_settings, bind, get_session, set_session. simpl. f_equal.
  apply erase_eq_intro; simpl; congruence.
Qed.

#[local] Hint Resolve ignores_keys_on_message ignores_keys_update_settings : ik.

(** X19.  The per-key session entries that [update_settings] and
    [__config_chat_session] write are never read: from two worlds that
    differ in them only, every operation returns or raises alike, with the
    same effects, the same handlers entered and the same stored history.
    What the handlers know of the settings they take from
    [chat_settings]. *)
Theorem keys_are_write_only op w1 w2 :
  erase w1 = erase w2 ->
  erase_outcome (perform conf route_type env op w1)
  = erase_outcome (perform conf route_type env op w2).
Proof.
  revert w1 w2. change (ignores_keys (perform conf route_type env op)).
  destruct op; simpl; ik.
Qed.

End WriteOnly.

Lemma keys_are_write_only_witness :
  erase_outcome
    (perform Sample.conf Sample.route_type (Sample.online None "" true)
       (OnMessage (mkInMessage "hello" []))
       (mkWorld (set_key_chat_model "claude" (session Sample.world))
          (effects Sample.world) (invoked Sample.world)))
  = erase_outcome
      (perform Sample.conf Sample.route_type (Sample.online None "" true)
         (OnMessage (mkInMessage "hello" [])) Sample.world).
Proof.
  apply (keys_are_write_only Sample.conf Sample.route_type
           (Sample.online None "" true) (OnMessage (mkInMessage "hello" []))).
  reflexivity.
Defined.

(** ** Chat start *)

(** X22.  [start_chat] resets the conversation: whatever the session held,
    afterwards the stored history is the system message followed by the
    greeting, [chat_settings] holds the initial values of the widgets and
    the chat-model key their chat model; the other entries are kept.  The
    greeting is the one message sent.  Starting twice leaves the same
    session as starting once. *)
Theorem start_chat_resets defaults w :
  start_chat defaults w
  = Returned tt
      (mkWorld
         (mkUserSession
            (Some [system_message; mkMessage "assistant" greeting])
            (Some (initial_settings defaults))
            (Some (SETTINGS_CHAT_MODEL (initial_settings defaults)))
            (key_vision_model (session w))
            (key_use_dynamic_conversation_routing (session w))
            (key_tts_model (session w))
            (key_tts_voice_preset_model (session w))
            (key_enable_tts_response (session w)))
         (effects w ++ [Send None greeting [] []])
         (invoked w)) /\
  session (world_of (start_chat defaults (world_of (start_chat defaults w))))
  = session (world_of (start_chat defaults w)).
Proof. split; reflexivity. Qed.

(** ** The speak action when nothing is to be said *)

(** X11.  The "speak" action with the TTS setting [False], or on an empty
    text: the action is removed from the UI and nothing else happens; the
    speech service is not called, nothing is sent or written and the
    session is unchanged. *)
Theorem speak_disabled_only_removes_action conf env action w :
  tts_disabled w \/ action_value action = "" ->
  on_speak_chat_response conf env action w
  = Returned tt
      (mkWorld (session w) (effects w ++ [RemoveAction action])
         (invoked w ++ [TextToSpeechHandler (action_value action)])).
Proof.
  unfold tts_disabled, on_speak_chat_response, __handle_tts_response. exec.
  intros [H|H].
  - destruct (chat_settings (session w)) as [st|]; simpl in *; [|done].
    injection H as ->. done.
  - rewrite H.
    destruct (chat_settings (session w)) as [st|]; simpl;
      [destruct (SETTINGS_ENABLE_TTS_RESPONSE st)|]; done.
Qed.

Lemma speak_disabled_only_removes_action_witness :
  on_speak_chat_response Sample.conf Sample.offline (speak_action "Hi!")
    Sample.world
  = Returned tt
      (mkWorld (session Sample.world)
         (effects Sample.world ++ [RemoveAction (speak_action "Hi!")])
         [TextToSpeechHandler "Hi!"]).
Proof.
  apply (speak_disabled_only_removes_action Sample.conf Sample.offline
           (speak_action "Hi!") Sample.world).
  left. reflexivity.
Defined.
